(** * The contact-form endpoint of server.js

    A shallow embedding of the [app.post('/api/contact')] handler together
    with the [contactSchema] it persists through and the two mail option
    objects it builds.

    Conventions of the model:
    - a JavaScript string is a [string]; the character [ascii_of_nat n]
      stands for the UTF-16 code unit [n], so the model covers the strings
      whose code units are all below 256 (ASCII and Latin-1).  On that range
      [String.prototype.trim] and [String.prototype.toLowerCase] are modelled
      exactly;
    - the values of the parsed JSON body are [JsValue]s; numbers, arrays and
      objects are kept abstract and are observed only through the operations
      the handler and the schema apply to them (class [JsHost]);
    - the database and the mail transport are collaborators whose answers are
      given by an environment [Env]; what the handler did to them is recorded
      in a [World]: the stored documents and the log of calls;
    - [req.body] is the object the JSON middleware parsed; writing to the
      console is left out, as are the [_id] and [__v] the database adds to a
      stored document. *)

From stdpp Require Import gmap strings list fin_maps.
From Stdlib Require Import Ascii ZArith DecimalString.

Local Open Scope stdpp_scope.

(** ** Strings *)

Module Js.

(** The double quote and the line feed, which the templates of the source
    contain literally. *)
Definition dq : string := String (ascii_of_nat 34) EmptyString.
Definition nl : string := String (ascii_of_nat 10) EmptyString.

(** Pieces of a template, glued in order. *)
Definition html (chunks : list string) : string :=
  foldr String.app EmptyString chunks.

(** ECMAScript WhiteSpace and LineTerminator code units below 256:
    TAB, LF, VT, FF, CR, SP and NBSP. *)
Definition is_white_space (c : ascii) : bool :=
  match c with
  | "009" | "010" | "011" | "012" | "013" | " " | "160" => true
  | _ => false
  end%char.

(** [toLowerCase] on one code unit below 256: A-Z, and the Latin-1 capitals
    U+00C0..U+00DE except the multiplication sign U+00D7, move up by 32. *)
Definition is_upper (c : ascii) : bool :=
  let n := nat_of_ascii c in
  ((65 <=? n) && (n <=? 90)) ||
  ((192 <=? n) && (n <=? 222) && negb (n =? 215)).

Definition lower_char (c : ascii) : ascii :=
  if is_upper c then ascii_of_nat (nat_of_ascii c + 32) else c.

Fixpoint toLowerCase (s : string) : string :=
  match s with
  | EmptyString => EmptyString
  | String c s' => String (lower_char c) (toLowerCase s')
  end.

Fixpoint trimStart (s : string) : string :=
  match s with
  | EmptyString => EmptyString
  | String c s' => if is_white_space c then trimStart s' else s
  end.

Fixpoint trimEnd (s : string) : string :=
  match s with
  | EmptyString => EmptyString
  | String c s' =>
      match trimEnd s' with
      | EmptyString => if is_white_space c then EmptyString else String c EmptyString
      | t => String c t
      end
  end.

Definition trim (s : string) : string := trimEnd (trimStart s).

Definition is_line_feed (c : ascii) : bool := Ascii.eqb c "010"%char.

(** [s.replace(/\n/g, '<br>')]: every line feed becomes the four characters
    of the break tag, everything else is kept. *)
Fixpoint replace_newlines (s : string) : string :=
  match s with
  | EmptyString => EmptyString
  | String c s' =>
      if is_line_feed c then "<br>" +:+ replace_newlines s'
      else String c (replace_newlines s')
  end.

Fixpoint all_chars (p : ascii -> bool) (s : string) : bool :=
  match s with
  | EmptyString => true
  | String c s' => p c && all_chars p s'
  end.

Fixpoint has_char (p : ascii -> bool) (s : string) : bool :=
  match s with
  | EmptyString => false
  | String c s' => p c || has_char p s'
  end.

Definition is_empty (s : string) : bool :=
  match s with EmptyString => true | _ => false end.

(** [s.includes(t)], by trying every position of [s] in turn. *)
Fixpoint includes (t s : string) : bool :=
  String.prefix t s ||
  match s with
  | EmptyString => false
  | String _ s' => includes t s'
  end.

(** [t] occurs in [s] as a contiguous piece. *)
Definition occurs_in (t s : string) : Prop :=
  exists pre post, s = pre +:+ t +:+ post.

End Js.

(** ** Values of the request body *)

(** Numbers, arrays and objects of the parsed JSON body.  The handler never
    inspects them; it only tests them for truthiness, converts them to text
    in a template literal, and hands them to the schema, which casts them to
    a string.  [compound_toString] is [None] when the conversion throws a
    TypeError (an object with an own, non-callable [toString]);
    [compound_cast] is the schema's String cast, [None] when it raises a
    CastError. *)
Class JsHost := {
  Number : Type;
  number_is_zero : Number -> bool;
  number_toString : Number -> string;
  Compound : Type;
  compound_toString : Compound -> option string;
  compound_cast : Compound -> option string
}.

Inductive JsValue `{JsHost} : Type :=
  | JsUndefined
  | JsNull
  | JsBool (b : bool)
  | JsNumber (n : Number)
  | JsString (s : string)
  | JsCompound (o : Compound).

Inductive Error : Type :=
  | TypeError
  | ValidationError (paths : list string)
  | StoreError
  | DispatchError.

Inductive Result (A : Type) : Type :=
  | Ok (a : A)
  | Throw (e : Error).
Arguments Ok {A} a.
Arguments Throw {A} e.

Global Instance Result_ret : MRet Result := fun A a => Ok a.
Global Instance Result_bind : MBind Result := fun A B f r =>
  match r with
  | Ok a => f a
  | Throw e => Throw e
  end.

Section Values.
Context `{JsHost}.

(** ToBoolean.  A parsed JSON number is never NaN, so a number is falsy
    exactly when it is zero. *)
Definition truthy (v : JsValue) : bool :=
  match v with
  | JsUndefined | JsNull => false
  | JsBool b => b
  | JsNumber n => negb (number_is_zero n)
  | JsString s => negb (Js.is_empty s)
  | JsCompound _ => true
  end.

(** [a || b] *)
Definition js_or (a b : JsValue) : JsValue := if truthy a then a else b.

Definition bool_toString (b : bool) : string := if b then "true" else "false".

(** ToString, as applied to a substitution of a template literal. *)
Definition toString (v : JsValue) : Result string :=
  match v with
  | JsUndefined => Ok "undefined"
  | JsNull => Ok "null"
  | JsBool b => Ok (bool_toString b)
  | JsNumber n => Ok (number_toString n)
  | JsString s => Ok s
  | JsCompound o =>
      match compound_toString o with
      | Some s => Ok s
      | None => Throw TypeError
      end
  end.

(** [v.replace(/\n/g, '<br>')]: only a string has a [replace] method; on any
    other value of a JSON body the call throws a TypeError. *)
Definition replace (v : JsValue) : Result string :=
  match v with
  | JsString s => Ok (Js.replace_newlines s)
  | _ => Throw TypeError
  end.

(** [const { k } = req.body]: a missing key reads as [undefined]. *)
Definition field (body : gmap string JsValue) (k : string) : JsValue :=
  default JsUndefined (body !! k).

End Values.

(** ** contactSchema *)

(** The options a String path of the schema declares. *)
Record PathOptions := {
  required : bool;
  opt_trim : bool;
  opt_lowercase : bool
}.

Definition contactSchema_name : PathOptions :=
  {| required := true; opt_trim := true; opt_lowercase := false |}.
Definition contactSchema_email : PathOptions :=
  {| required := true; opt_trim := true; opt_lowercase := true |}.
Definition contactSchema_subject : PathOptions :=
  {| required := false; opt_trim := true; opt_lowercase := false |}.
Definition contactSchema_message : PathOptions :=
  {| required := true; opt_trim := true; opt_lowercase := false |}.

(** What a String path holds after a value was assigned to it: a string,
    nothing ([null] and [undefined] are kept as they are), or a cast error that
    validation reports. *)
Inductive PathValue : Type :=
  | Held (s : option string)
  | CastFailed.

(** A document in memory, as [new Contact({...})] builds it. *)
Record Document := {
  doc_name : PathValue;
  doc_email : PathValue;
  doc_subject : PathValue;
  doc_message : PathValue;
  doc_createdAt : Z
}.

(** A stored submission. *)
Record Contact := {
  name : string;
  email : string;
  subject : option string;
  message : string;
  createdAt : Z
}.

Section Schema.
Context `{JsHost}.

(** The cast of a String path: a string is kept, a boolean or a number is
    replaced by its [toString()], [null] and [undefined] stay missing. *)
Definition cast_string (v : JsValue) : PathValue :=
  match v with
  | JsUndefined | JsNull => Held None
  | JsBool b => Held (Some (bool_toString b))
  | JsNumber n => Held (Some (number_toString n))
  | JsString s => Held (Some s)
  | JsCompound o =>
      match compound_cast o with
      | Some s => Held (Some s)
      | None => CastFailed
      end
  end.

(** The setters of [lowercase: true] and [trim: true].  The library runs the
    setter declared last first; the two commute (lemma [toLowerCase_trim]). *)
Definition apply_setters (o : PathOptions) (s : string) : string :=
  let s := if opt_lowercase o then Js.toLowerCase s else s in
  if opt_trim o then Js.trim s else s.

Definition set_path (o : PathOptions) (v : JsValue) : PathValue :=
  match cast_string v with
  | Held (Some s) => Held (Some (apply_setters o s))
  | p => p
  end.

(** The validators of a path: a cast error always fails; [required: true]
    fails on a missing value and on the empty string. *)
Definition path_valid (o : PathOptions) (p : PathValue) : bool :=
  match p with
  | CastFailed => false
  | Held None => negb (required o)
  | Held (Some s) => negb (required o && Js.is_empty s)
  end.

Definition invalid_paths (d : Document) : list string :=
  (if path_valid contactSchema_name (doc_name d) then [] else ["name"]) ++
  (if path_valid contactSchema_email (doc_email d) then [] else ["email"]) ++
  (if path_valid contactSchema_subject (doc_subject d) then [] else ["subject"]) ++
  (if path_valid contactSchema_message (doc_message d) then [] else ["message"]).

(** The record a valid document is stored as. *)
Definition to_contact (d : Document) : option Contact :=
  match doc_name d, doc_email d, doc_subject d, doc_message d with
  | Held (Some n), Held (Some e), Held s, Held (Some m) =>
      Some {| name := n; email := e; subject := s; message := m;
              createdAt := doc_createdAt d |}
  | _, _, _, _ => None
  end.

Definition validate (d : Document) : Result Contact :=
  match invalid_paths d, to_contact d with
  | [], Some c => Ok c
  | paths, _ => Throw (ValidationError paths)
  end.

End Schema.

(** ** The collaborators: database and mail transport *)

(** The argument of [transporter.sendMail].  [to] and [replyTo] carry the
    value of the body as it is; the acknowledgment has no [replyTo]. *)
Record MailOptions `{JsHost} := {
  mail_from : string;
  mail_to : JsValue;
  mail_replyTo : option JsValue;
  mail_subject : string;
  mail_html : string
}.

(** One call to a collaborator and how it ended. *)
Inductive Event `{JsHost} : Type :=
  | Saved (c : Contact)
  | SaveFailed (e : Error)
  | MailSent (m : MailOptions)
  | MailFailed (m : MailOptions).

(** The stored documents, oldest first, and the calls made so far. *)
Record World `{JsHost} := {
  db : list Contact;
  log : list Event
}.

(** What the surroundings answer during one request: the [EMAIL_USER]
    variable of the process, the clock read by [default: Date.now], whether
    the database takes the insert, and whether the transport takes a message.
    The two messages of a request always differ in their subject, so a
    function of the message can answer the two sends independently. *)
Record Env `{JsHost} := {
  EMAIL_USER : option string;
  Date_now : Z;
  store_accepts : Contact -> bool;
  transport_accepts : MailOptions -> bool
}.

(** The HTTP answer: [res.status(n).json(obj)]. *)
Record Response `{JsHost} := {
  status : nat;
  json : gmap string JsValue
}.

(** Computations over the world that may throw. *)
Definition M `{JsHost} (A : Type) : Type := World -> Result A * World.

Global Instance M_ret `{JsHost} : MRet M := fun A a w => (Ok a, w).
Global Instance M_bind `{JsHost} : MBind M := fun A B f c w =>
  match c w with
  | (Ok a, w') => f a w'
  | (Throw e, w') => (Throw e, w')
  end.

Section Handler.
Context `{JsHost}.

(** A pure computation inside [M]. *)
Definition lift {A} (r : Result A) : M A := fun w => (r, w).

(** [try { body } catch (error) { handler }] *)
Definition try_catch {A} (body : M A) (handler : Error -> M A) : M A :=
  fun w =>
    match body w with
    | (Ok a, w') => (Ok a, w')
    | (Throw e, w') => handler e w'
    end.

Definition record (ev : Event) (w : World) : World :=
  {| db := db w; log := log w ++ [ev] |}.

Definition insert (c : Contact) (w : World) : World :=
  {| db := db w ++ [c]; log := log w |}.

(** [new Contact({ name, email, subject, message })]: every path is cast and
    goes through its setters; [createdAt] takes its default. *)
Definition new_Contact (env : Env) (name email subject message : JsValue) : Document :=
  {| doc_name := set_path contactSchema_name name;
     doc_email := set_path contactSchema_email email;
     doc_subject := set_path contactSchema_subject subject;
     doc_message := set_path contactSchema_message message;
     doc_createdAt := Date_now env |}.

(** [await doc.save()]: the document is validated first; an invalid document
    is rejected before anything is written, a valid one is inserted unless
    the database refuses. *)
Definition save_outcome (env : Env) (d : Document) : Result Contact :=
  c ← validate d;
  if store_accepts env c then Ok c else Throw StoreError.

Definition save (env : Env) (d : Document) : M unit := fun w =>
  match save_outcome env d with
  | Ok c => (Ok tt, record (Saved c) (insert c w))
  | Throw e => (Throw e, record (SaveFailed e) w)
  end.

(** [await transporter.sendMail(options)] *)
Definition sendMail (env : Env) (m : MailOptions) : M unit := fun w =>
  if transport_accepts env m then (Ok tt, record (MailSent m) w)
  else (Throw DispatchError, record (MailFailed m) w).

(** [${process.env.EMAIL_USER}] *)
Definition env_text (v : option string) : string := default "undefined" v.

Definition No_Subject : JsValue := JsString "No Subject".

(** The constant text of the two [html] templates, cut at the substitutions. *)
Definition admin_html_0 : string := Js.html
  [ Js.nl;
    "                <!DOCTYPE html>"; Js.nl;
    "                <html>"; Js.nl;
    "                <head>"; Js.nl;
    "                  <style>"; Js.nl;
    "                    body { font-family: Arial, sans-serif; line-height: 1.6; color: #333; }"; Js.nl;
    "                    .container { max-width: 600px; margin: 20px auto; padding: 20px; border: 1px solid #ddd; border-radius: 8px; }"; Js.nl;
    "                    .header { background-color: #4F46E5; color: white; padding: 10px; text-align: center; border-radius: 5px 5px 0 0; }"; Js.nl;
    "                    .content { padding: 20px; }"; Js.nl;
    "                    .field { margin-bottom: 15px; }"; Js.nl;
    "                    .label { font-weight: bold; color: #555; }"; Js.nl;
    "                    .value { margin-top: 5px; padding: 10px; background-color: #f9f9f9; border: 1px solid #eee; border-radius: 3px; }"; Js.nl;
    "                    .footer { margin-top: 20px; text-align: center; font-size: 12px; color: #888; }"; Js.nl;
    "                  </style>"; Js.nl;
    "                </head>"; Js.nl;
    "                <body>"; Js.nl;
    "                  <div class="; Js.dq; "container"; Js.dq; ">"; Js.nl;
    "                    <div class="; Js.dq; "header"; Js.dq; "><h2>New Contact Form Submission</h2></div>"; Js.nl;
    "                    <div class="; Js.dq; "content"; Js.dq; ">"; Js.nl;
    "                      <div class="; Js.dq; "field"; Js.dq; "><div class="; Js.dq; "label"; Js.dq; ">Name:</div><div class="; Js.dq; "value"; Js.dq; ">" ].

Definition admin_html_1 : string := Js.html
  [ "</div></div>"; Js.nl;
    "                      <div class="; Js.dq; "field"; Js.dq; "><div class="; Js.dq; "label"; Js.dq; ">Email:</div><div class="; Js.dq; "value"; Js.dq; "><a href="; Js.dq; "mailto:" ].

Definition admin_html_2 : string := Js.html
  [ Js.dq; ">" ].

Definition admin_html_3 : string := Js.html
  [ "</a></div></div>"; Js.nl;
    "                      <div class="; Js.dq; "field"; Js.dq; "><div class="; Js.dq; "label"; Js.dq; ">Subject:</div><div class="; Js.dq; "value"; Js.dq; ">" ].

Definition admin_html_4 : string := Js.html
  [ "</div></div>"; Js.nl;
    "                      <div class="; Js.dq; "field"; Js.dq; "><div class="; Js.dq; "label"; Js.dq; ">Message:</div><div class="; Js.dq; "value"; Js.dq; ">" ].

Definition admin_html_5 : string := Js.html
  [ "</div></div>"; Js.nl;
    "                    </div>"; Js.nl;
    "                    <div class="; Js.dq; "footer"; Js.dq; "><p>This message was sent from your portfolio contact form.</p></div>"; Js.nl;
    "                  </div>"; Js.nl;
    "                </body>"; Js.nl;
    "                </html>"; Js.nl;
    "            " ].

Definition reply_html_0 : string := Js.html
  [ Js.nl;
    "                <!DOCTYPE html>"; Js.nl;
    "                <html>"; Js.nl;
    "                <head>"; Js.nl;
    "                  <style>"; Js.nl;
    "                    body { font-family: Arial, sans-serif; line-height: 1.6; color: #333; }"; Js.nl;
    "                    .container { max-width: 600px; margin: 20px auto; padding: 20px; border: 1px solid #ddd; border-radius: 8px; }"; Js.nl;
    "                    .header { background-color: #4F46E5; color: white; padding: 10px; text-align: center; border-radius: 5px 5px 0 0; }"; Js.nl;
    "                    .content { padding: 20px; text-align: left; }"; Js.nl;
    "                    .footer { margin-top: 20px; text-align: center; font-size: 12px; color: #888; }"; Js.nl;
    "                  </style>"; Js.nl;
    "                </head>"; Js.nl;
    "                <body>"; Js.nl;
    "                  <div class="; Js.dq; "container"; Js.dq; ">"; Js.nl;
    "                    <div class="; Js.dq; "header"; Js.dq; "><h2>Thank You!</h2></div>"; Js.nl;
    "                    <div class="; Js.dq; "content"; Js.dq; ">"; Js.nl;
    "                      <p>Hi " ].

Definition reply_html_1 : string := Js.html
  [ ",</p>"; Js.nl;
    "                      <p>Thank you for reaching out! I have received your message and will get back to you as soon as possible.</p>"; Js.nl;
    "                      <p>Best regards,<br>Kinshuk Saxena</p>"; Js.nl;
    "                    </div>"; Js.nl;
    "                    <div class="; Js.dq; "footer"; Js.dq; "><p>This is an automated reply. Please do not reply to this email.</p></div>"; Js.nl;
    "                  </div>"; Js.nl;
    "                </body>"; Js.nl;
    "                </html>"; Js.nl;
    "            " ].

(** The [html] template of [mailOptionsToAdmin] with its five substitutions
    already converted to text. *)
Definition admin_html (name email subject message_br : string) : string :=
  admin_html_0 +:+ name +:+ admin_html_1 +:+ email +:+ admin_html_2 +:+ email
  +:+ admin_html_3 +:+ subject +:+ admin_html_4 +:+ message_br +:+ admin_html_5.

(** The [html] template of [autoReplyOptions]. *)
Definition reply_html (name : string) : string :=
  reply_html_0 +:+ name +:+ reply_html_1.

(** Pieces of the templates around a substitution: the box a field value is
    shown in, the mail-to link, and the greeting of the acknowledgment. *)
Definition value_open : string :=
  "<div class=" +:+ Js.dq +:+ "value" +:+ Js.dq +:+ ">".

Definition value_div (t : string) : string := value_open +:+ t +:+ "</div>".

Definition mailto_link (e : string) : string :=
  "<a href=" +:+ Js.dq +:+ "mailto:" +:+ e +:+ Js.dq +:+ ">" +:+ e +:+ "</a>".

Definition greeting (n : string) : string := "<p>Hi " +:+ n +:+ ",</p>".

(** The object literal [mailOptionsToAdmin]; its properties are evaluated in
    the order they are written, each substitution converted as it is met. *)
Definition mailOptionsToAdmin (env : Env) (name email subject message : JsValue)
  : Result MailOptions :=
  from_name ← toString name;
  subject_line ← toString (js_or subject No_Subject);
  html_name ← toString name;
  html_email ← toString email;
  html_email' ← toString email;
  html_subject ← toString (js_or subject No_Subject);
  html_message ← replace message;
  mret {| mail_from := Js.dq +:+ from_name +:+ Js.dq +:+ " <" +:+ env_text (EMAIL_USER env) +:+ ">";
          mail_to := JsString "kinshuksaxena3@gmail.com";
          mail_replyTo := Some email;
          mail_subject := "New Contact Form Message: " +:+ subject_line;
          mail_html := admin_html html_name html_email html_subject html_message |}.

(** The object literal [autoReplyOptions]. *)
Definition autoReplyOptions (env : Env) (name email : JsValue) : Result MailOptions :=
  html_name ← toString name;
  mret {| mail_from := Js.dq +:+ "Kinshuk Saxena" +:+ Js.dq +:+ " <" +:+ env_text (EMAIL_USER env) +:+ ">";
          mail_to := email;
          mail_replyTo := None;
          mail_subject := "Thank you for your message!";
          mail_html := reply_html html_name |}.

Definition respond (code : nat) (success : bool) (text : string) : Response :=
  {| status := code;
     json := {[ "success" := JsBool success; "message" := JsString text ]} |}.

Definition bad_request : Response :=
  respond 400 false "Please fill in all required fields (Name, Email, Message).".
Definition sent_successfully : Response :=
  respond 200 true "Your message has been sent successfully!".
Definition internal_error : Response :=
  respond 500 false "An internal server error occurred. Please try again later.".

(** The guard of step 1: [!name || !email || !message]. *)
Definition missing_required (name email message : JsValue) : bool :=
  negb (truthy name) || negb (truthy email) || negb (truthy message).

(** [app.post('/api/contact', async (req, res) => { ... })], with [body] the
    parsed [req.body]. *)
Definition post_api_contact (env : Env) (body : gmap string JsValue) : M Response :=
  try_catch
    (let name := field body "name" in
     let email := field body "email" in
     let subject := field body "subject" in
     let message := field body "message" in
     if missing_required name email message then
       mret bad_request
     else
       let newContact := new_Contact env name email (js_or subject No_Subject) message in
       _ ← save env newContact;
       toAdmin ← lift (mailOptionsToAdmin env name email subject message);
       _ ← sendMail env toAdmin;
       autoReply ← lift (autoReplyOptions env name email);
       _ ← sendMail env autoReply;
       mret sent_successfully)
    (fun error => mret internal_error).

End Handler.

(** ** What one request shows to the outside *)

Section Observations.
Context `{JsHost}.

(** The guard applied to the fields of a body. *)
Definition rejected (body : gmap string JsValue) : bool :=
  missing_required (field body "name") (field body "email") (field body "message").

(** The document the handler builds from a body. *)
Definition submitted (env : Env) (body : gmap string JsValue) : Document :=
  new_Contact env (field body "name") (field body "email")
    (js_or (field body "subject") No_Subject) (field body "message").

(** The two messages the handler builds from a body. *)
Definition operator_mail (env : Env) (body : gmap string JsValue) : Result MailOptions :=
  mailOptionsToAdmin env (field body "name") (field body "email")
    (field body "subject") (field body "message").

Definition reply_mail (env : Env) (body : gmap string JsValue) : Result MailOptions :=
  autoReplyOptions env (field body "name") (field body "email").

(** The answer sent, the database afterwards, and the calls this request
    added to the log. *)
Definition response (env : Env) (body : gmap string JsValue) (w : World) : Result Response :=
  (post_api_contact env body w).1.

Definition stored (env : Env) (body : gmap string JsValue) (w : World) : list Contact :=
  db (post_api_contact env body w).2.

Definition calls (env : Env) (body : gmap string JsValue) (w : World) : list Event :=
  drop (length (log w)) (log (post_api_contact env body w).2).

(** The message of a call to the transport. *)
Definition mail_of (ev : Event) : option MailOptions :=
  match ev with
  | MailSent m | MailFailed m => Some m
  | Saved _ | SaveFailed _ => None
  end.

(** The messages handed to the transport, in order. *)
Definition dispatches (evs : list Event) : list MailOptions := omap mail_of evs.

End Observations.

(** ** Concrete requests and surroundings *)

(** A host whose numbers are the integers, printed in decimal, and whose
    bodies hold no arrays or objects. *)
Definition integer_host : JsHost :=
  {| Number := Z;
     number_is_zero := Z.eqb 0;
     number_toString := fun n => NilZero.string_of_int (Z.to_int n);
     Compound := Empty_set;
     compound_toString := fun o => match o with end;
     compound_cast := fun o => match o with end |}.

Section Scenarios.
Context `{JsHost}.

Definition empty_world : World := {| db := []; log := [] |}.

(** Database and transport both at work. *)
Definition all_up : Env :=
  {| EMAIL_USER := Some "owner@example.com";
     Date_now := 1700000000000;
     store_accepts := fun _ => true;
     transport_accepts := fun _ => true |}.

(** The database refuses the insert. *)
Definition store_down : Env :=
  {| EMAIL_USER := Some "owner@example.com";
     Date_now := 1700000000000;
     store_accepts := fun _ => false;
     transport_accepts := fun _ => true |}.

(** The transport refuses the operator message (the one with a [replyTo])
    and would take the acknowledgment. *)
Definition operator_mail_down : Env :=
  {| EMAIL_USER := Some "owner@example.com";
     Date_now := 1700000000000;
     store_accepts := fun _ => true;
     transport_accepts := fun m =>
       match mail_replyTo m with Some _ => false | None => true end |}.

(** The transport takes the operator message and refuses the acknowledgment. *)
Definition reply_mail_down : Env :=
  {| EMAIL_USER := Some "owner@example.com";
     Date_now := 1700000000000;
     store_accepts := fun _ => true;
     transport_accepts := fun m =>
       match mail_replyTo m with Some _ => true | None => false end |}.

Definition body_ada : gmap string JsValue :=
  {[ "name" := JsString "Ada"; "email" := JsString "ADA@X.COM";
     "message" := JsString "Hello" ]}.

(** The record scenario A stores. *)
Definition contact_ada (env : Env) : Contact :=
  {| name := "Ada"; email := "ada@x.com"; subject := Some "No Subject";
     message := "Hello"; createdAt := Date_now env |}.

(** The two messages scenario A builds. *)
Definition operator_mail_ada (env : Env) : MailOptions :=
  {| mail_from := Js.dq +:+ "Ada" +:+ Js.dq +:+ " <" +:+ env_text (EMAIL_USER env) +:+ ">";
     mail_to := JsString "kinshuksaxena3@gmail.com";
     mail_replyTo := Some (JsString "ADA@X.COM");
     mail_subject := "New Contact Form Message: No Subject";
     mail_html := admin_html "Ada" "ADA@X.COM" "No Subject" "Hello" |}.

Definition reply_mail_ada (env : Env) : MailOptions :=
  {| mail_from := Js.dq +:+ "Kinshuk Saxena" +:+ Js.dq +:+ " <" +:+ env_text (EMAIL_USER env) +:+ ">";
     mail_to := JsString "ADA@X.COM";
     mail_replyTo := None;
     mail_subject := "Thank you for your message!";
     mail_html := reply_html "Ada" |}.

Definition body_blank_name : gmap string JsValue :=
  {[ "name" := JsString "   "; "email" := JsString "a@b.com";
     "message" := JsString "hi" ]}.

Definition body_blank_subject : gmap string JsValue :=
  {[ "name" := JsString "Ada"; "email" := JsString "ada@x.com";
     "subject" := JsString "   "; "message" := JsString "Hello" ]}.

Definition body_markup : gmap string JsValue :=
  {[ "name" := JsString "<b>Ada</b>"; "email" := JsString "ada@x.com";
     "message" := JsString "Hello" ]}.

Definition body_two_lines : gmap string JsValue :=
  {[ "name" := JsString " Ada "; "email" := JsString "Ada@X.com";
     "subject" := JsString " Hi ";
     "message" := JsString ("one" +:+ Js.nl +:+ "two") ]}.

(** What the request with the untrimmed fields stores and sends. *)
Definition contact_two_lines (env : Env) : Contact :=
  {| name := "Ada"; email := "ada@x.com"; subject := Some "Hi";
     message := "one" +:+ Js.nl +:+ "two"; createdAt := Date_now env |}.

Definition operator_mail_two_lines (env : Env) : MailOptions :=
  {| mail_from := Js.dq +:+ " Ada " +:+ Js.dq +:+ " <" +:+ env_text (EMAIL_USER env) +:+ ">";
     mail_to := JsString "kinshuksaxena3@gmail.com";
     mail_replyTo := Some (JsString "Ada@X.com");
     mail_subject := "New Contact Form Message:  Hi ";
     mail_html := admin_html " Ada " "Ada@X.com" " Hi " "one<br>two" |}.

Definition reply_mail_two_lines (env : Env) : MailOptions :=
  {| mail_from := Js.dq +:+ "Kinshuk Saxena" +:+ Js.dq +:+ " <" +:+ env_text (EMAIL_USER env) +:+ ">";
     mail_to := JsString "Ada@X.com";
     mail_replyTo := None;
     mail_subject := "Thank you for your message!";
     mail_html := reply_html " Ada " |}.

(** What the request with a white-space subject stores. *)
Definition contact_blank_subject (env : Env) : Contact :=
  {| name := "Ada"; email := "ada@x.com"; subject := Some EmptyString;
     message := "Hello"; createdAt := Date_now env |}.

Definition body_no_name : gmap string JsValue :=
  {[ "email" := JsString "a@b.com"; "message" := JsString "hi" ]}.

End Scenarios.

Definition body_numeric_name : gmap string (@JsValue integer_host) :=
  {[ "name" := JsNumber (H := integer_host) 7%Z; "email" := JsString "a@b.com";
     "message" := JsString "hi" ]}.

(** ** Requests one after another, and what a stored record looks like *)

(** The occurrences in [s] of the characters that satisfy [p]. *)
Fixpoint count_chars (p : ascii -> bool) (s : string) : nat :=
  match s with
  | EmptyString => 0
  | String c s' => (if p c then 1 else 0) + count_chars p s'
  end.

(** A string that does not begin with white space. *)
Definition starts_clean (s : string) : bool :=
  match s with
  | EmptyString => true
  | String c _ => negb (Js.is_white_space c)
  end.

(** What the setters and validators of [contactSchema] leave in a stored
    record: [name], [email] and [message] are not empty and have no white
    space left at either end, [email] has no capital letter left, and
    [subject] is present and trimmed. *)
Definition normalized (c : Contact) : Prop :=
  name c <> EmptyString /\ Js.trim (name c) = name c /\
  email c <> EmptyString /\ Js.trim (email c) = email c /\
  Js.toLowerCase (email c) = email c /\
  message c <> EmptyString /\ Js.trim (message c) = message c /\
  exists s, subject c = Some s /\ Js.trim s = s.

Section Sequence.
Context `{JsHost}.

(** The record of a successful save. *)
Definition saved_of (ev : Event) : option Contact :=
  match ev with
  | Saved c => Some c
  | SaveFailed _ | MailSent _ | MailFailed _ => None
  end.

(** Requests handled one after another, none starting before the one
    before it has answered; each comes with the surroundings it meets. *)
Fixpoint serve (reqs : list (Env * gmap string JsValue)) (w : World) : World :=
  match reqs with
  | [] => w
  | (env, body) :: rest => serve rest (post_api_contact env body w).2
  end.

(** The body that sends the fields of a stored record back. *)
Definition contact_body (c : Contact) : gmap string JsValue :=
  {[ "name" := JsString (name c); "email" := JsString (email c);
     "subject" := default JsNull (JsString <$> subject c);
     "message" := JsString (message c) ]}.

(** Scenario A with a [createdAt] and a [role] of the client's own. *)
Definition body_ada_extras : gmap string JsValue :=
  <["createdAt" := JsString "1999-01-01"]> (<["role" := JsString "admin"]> body_ada).

(** A message that is [true], not a text. *)
Definition body_true_message : gmap string JsValue :=
  {[ "name" := JsString "Ada"; "email" := JsString "ada@x.com";
     "message" := JsBool true ]}.

(** A white-space email. *)
Definition body_blank_email : gmap string JsValue :=
  {[ "name" := JsString "Ada"; "email" := JsString "  ";
     "message" := JsString "hi" ]}.

(** The surroundings of [all_up] one millisecond later. *)
Definition all_up_later : Env :=
  {| EMAIL_USER := Some "owner@example.com";
     Date_now := 1700000000001;
     store_accepts := fun _ => true;
     transport_accepts := fun _ => true |}.

(** [EMAIL_USER] is not set. *)
Definition no_email_user : Env :=
  {| EMAIL_USER := None;
     Date_now := 1700000000000;
     store_accepts := fun _ => true;
     transport_accepts := fun _ => true |}.

End Sequence.

(** * Facts *)

(** ** Strings *)

Lemma sapp_nil_l (s : string) : EmptyString +:+ s = s.
Proof. reflexivity. Qed.

Lemma sapp_cons (c : ascii) (s t : string) : String c s +:+ t = String c (s +:+ t).
Proof. reflexivity. Qed.

Lemma sapp_nil_r (s : string) : s +:+ EmptyString = s.
Proof. induction s as [|c s IH]; [done|]. by rewrite sapp_cons, IH. Qed.

Lemma sapp_assoc (s t u : string) : (s +:+ t) +:+ u = s +:+ (t +:+ u).
Proof. induction s as [|c s IH]; [done|]. by rewrite !sapp_cons, IH. Qed.

Lemma is_empty_true (s : string) : Js.is_empty s = true <-> s = EmptyString.
Proof. by destruct s. Qed.

Lemma all_chars_app p (s t : string) :
  Js.all_chars p (s +:+ t) = Js.all_chars p s && Js.all_chars p t.
Proof.
  induction s as [|c s IH]; [done|].
  rewrite sapp_cons. simpl. rewrite IH. by destruct (p c).
Qed.

Lemma has_char_all_chars p (s : string) :
  Js.has_char p s = negb (Js.all_chars (fun c => negb (p c)) s).
Proof.
  induction s as [|c s IH]; [done|]. simpl. rewrite IH. by destruct (p c).
Qed.

(** *** toLowerCase *)

Lemma lower_char_not_upper (c : ascii) : Js.is_upper (Js.lower_char c) = false.
Proof. by destruct c as [[] [] [] [] [] [] [] []]. Qed.

Lemma lower_char_fixed (c : ascii) : Js.is_upper c = false -> Js.lower_char c = c.
Proof. unfold Js.lower_char. by intros ->. Qed.

Lemma lower_char_white_space (c : ascii) :
  Js.is_white_space (Js.lower_char c) = Js.is_white_space c.
Proof. by destruct c as [[] [] [] [] [] [] [] []]. Qed.

Lemma toLowerCase_no_upper (s : string) :
  Js.all_chars (fun c => negb (Js.is_upper c)) (Js.toLowerCase s) = true.
Proof.
  induction s as [|c s IH]; [done|]. simpl.
  by rewrite lower_char_not_upper, IH.
Qed.

Lemma toLowerCase_idemp (s : string) :
  Js.toLowerCase (Js.toLowerCase s) = Js.toLowerCase s.
Proof.
  induction s as [|c s IH]; [done|]. simpl.
  by rewrite IH, (lower_char_fixed _ (lower_char_not_upper c)).
Qed.

Lemma toLowerCase_fixed (s : string) :
  Js.has_char Js.is_upper s = false -> Js.toLowerCase s = s.
Proof.
  induction s as [|c s IH]; [done|]. simpl.
  intros [Hc Hs]%orb_false_iff. by rewrite IH, lower_char_fixed.
Qed.

(** *** trim *)

Lemma trimStart_all_chars p (s : string) :
  Js.all_chars p s = true -> Js.all_chars p (Js.trimStart s) = true.
Proof.
  induction s as [|c s IH]; [done|]. simpl.
  intros [Hc Hs]%andb_true_iff.
  destruct (Js.is_white_space c); [by apply IH|]. simpl. by rewrite Hc, Hs.
Qed.

Lemma trimEnd_all_chars p (s : string) :
  Js.all_chars p s = true -> Js.all_chars p (Js.trimEnd s) = true.
Proof.
  induction s as [|c s IH]; [done|]. simpl.
  intros [Hc Hs]%andb_true_iff. specialize (IH Hs).
  destruct (Js.trimEnd s) as [|c' t].
  - destruct (Js.is_white_space c); [done|]. simpl. by rewrite Hc.
  - change (p c && Js.all_chars p (String c' t) = true). by rewrite Hc, IH.
Qed.

Lemma trim_all_chars p (s : string) :
  Js.all_chars p s = true -> Js.all_chars p (Js.trim s) = true.
Proof. intros Hs. by apply trimEnd_all_chars, trimStart_all_chars. Qed.

Lemma trimEnd_empty (s : string) :
  Js.is_empty (Js.trimEnd s) = Js.all_chars Js.is_white_space s.
Proof.
  induction s as [|c s IH]; [done|]. simpl.
  destruct (Js.trimEnd s) as [|c' t]; simpl in *.
  - rewrite <- IH. by destruct (Js.is_white_space c).
  - rewrite <- IH. by rewrite andb_false_r.
Qed.

Lemma trimStart_white_space (s : string) :
  Js.all_chars Js.is_white_space (Js.trimStart s) = Js.all_chars Js.is_white_space s.
Proof.
  induction s as [|c s IH]; [done|]. simpl.
  destruct (Js.is_white_space c) eqn:Hc; [done|]. simpl. by rewrite Hc.
Qed.

(** A trimmed string is empty exactly when the string was all white space. *)
Lemma trim_empty (s : string) :
  Js.is_empty (Js.trim s) = Js.all_chars Js.is_white_space s.
Proof. unfold Js.trim. by rewrite trimEnd_empty, trimStart_white_space. Qed.

(** Trimming and lower-casing commute, so the order in which the two setters
    of [email] run does not matter. *)
Lemma toLowerCase_trimStart (s : string) :
  Js.toLowerCase (Js.trimStart s) = Js.trimStart (Js.toLowerCase s).
Proof.
  induction s as [|c s IH]; [done|]. simpl.
  rewrite lower_char_white_space. by destruct (Js.is_white_space c).
Qed.

Lemma toLowerCase_trimEnd (s : string) :
  Js.toLowerCase (Js.trimEnd s) = Js.trimEnd (Js.toLowerCase s).
Proof.
  induction s as [|c s IH]; [done|]. simpl.
  rewrite <- IH, lower_char_white_space.
  destruct (Js.trimEnd s); simpl; [by destruct (Js.is_white_space c)|done].
Qed.

Lemma toLowerCase_trim (s : string) :
  Js.toLowerCase (Js.trim s) = Js.trim (Js.toLowerCase s).
Proof. unfold Js.trim. by rewrite toLowerCase_trimEnd, toLowerCase_trimStart. Qed.

(** A string with a capital in it is not what [email]'s setters store. *)
Lemma upper_not_normalized (s : string) :
  Js.has_char Js.is_upper s = true -> Js.trim (Js.toLowerCase s) <> s.
Proof.
  intros Hup Heq.
  pose proof (trim_all_chars _ _ (toLowerCase_no_upper s)) as Hno.
  rewrite Heq in Hno. rewrite has_char_all_chars, Hno in Hup. done.
Qed.

(** *** replace *)

Lemma replace_newlines_app (s t : string) :
  Js.replace_newlines (s +:+ t) = Js.replace_newlines s +:+ Js.replace_newlines t.
Proof.
  induction s as [|c s IH]; [done|]. rewrite sapp_cons. simpl. rewrite IH.
  destruct (Js.is_line_feed c); [|done]. by rewrite sapp_assoc.
Qed.

Lemma replace_newlines_line_feed (s t : string) :
  Js.replace_newlines (s +:+ Js.nl +:+ t)
  = Js.replace_newlines s +:+ "<br>" +:+ Js.replace_newlines t.
Proof. by rewrite !replace_newlines_app. Qed.

(** No line feed is left in the result. *)
Lemma replace_newlines_no_newline (s : string) :
  Js.has_char Js.is_line_feed (Js.replace_newlines s) = false.
Proof.
  induction s as [|c s IH]; [done|]. simpl.
  destruct (Js.is_line_feed c) eqn:Hc.
  - by rewrite !sapp_cons, sapp_nil_l.
  - simpl. by rewrite IH, Hc.
Qed.

(** A text of one line is left as it is. *)
Lemma replace_newlines_fixed (s : string) :
  Js.has_char Js.is_line_feed s = false -> Js.replace_newlines s = s.
Proof.
  induction s as [|c s IH]; [done|]. simpl.
  intros [Hc Hs]%orb_false_iff. rewrite Hc. by rewrite IH.
Qed.

(** *** includes *)

Lemma prefix_occurs (t s : string) :
  String.prefix t s = true <-> exists post, s = t +:+ post.
Proof.
  revert s. induction t as [|c t IH]; intros s.
  - split; [intros _; by exists s|]. by destruct s.
  - destruct s as [|d s]; simpl.
    + split; [done|]. by intros [post Hpost].
    + destruct (ascii_dec c d) as [->|Hne].
      * rewrite IH. split; intros [post Hpost]; exists post.
        -- by rewrite sapp_cons, <- Hpost.
        -- rewrite sapp_cons in Hpost. by injection Hpost.
      * split; [done|]. intros [post Hpost].
        rewrite sapp_cons in Hpost. injection Hpost as Hc _. by destruct Hne.
Qed.

Lemma includes_unfold (t s : string) :
  Js.includes t s =
  String.prefix t s ||
  match s with EmptyString => false | String _ s' => Js.includes t s' end.
Proof. by destruct s. Qed.

(** [includes] decides [occurs_in]. *)
Lemma includes_occurs (t s : string) :
  Js.includes t s = true <-> Js.occurs_in t s.
Proof.
  split.
  - induction s as [|c s IH]; rewrite includes_unfold.
    + rewrite orb_false_r. intros [post ->]%prefix_occurs. by exists EmptyString, post.
    + intros [[post ->]%prefix_occurs | Hin]%orb_true_iff.
      * by exists EmptyString, post.
      * destruct (IH Hin) as (pre & post & ->). by exists (String c pre), post.
  - intros (pre & post & ->).
    induction pre as [|c pre IH]; rewrite includes_unfold.
    + apply orb_true_iff. left. apply prefix_occurs. by exists post.
    + rewrite sapp_cons. apply orb_true_iff. by right.
Qed.

(** ** Values and the schema *)

Section ValueFacts.
Context `{JsHost}.

Lemma js_or_truthy (a b : JsValue) : truthy a = true -> js_or a b = a.
Proof. unfold js_or. by intros ->. Qed.

Lemma js_or_falsy (a b : JsValue) : truthy a = false -> js_or a b = b.
Proof. unfold js_or. by intros ->. Qed.

(** The falsy values of a JSON body. *)
Lemma falsy_values (v : JsValue) :
  truthy v = false <->
  v = JsUndefined \/ v = JsNull \/ v = JsBool false \/
  v = JsString EmptyString \/
  exists n, v = JsNumber n /\ number_is_zero n = true.
Proof.
  split.
  - destruct v as [| |[]|n|[|c s]|o]; simpl; try done; eauto 6.
    intros Hn%negb_false_iff. eauto 8.
  - intros [-> | [-> | [-> | [-> | (n & -> & Hn)]]]]; simpl; try done.
    by rewrite Hn.
Qed.

(** A truthy value is never kept as a missing one by the cast. *)
Lemma cast_string_truthy (v : JsValue) : truthy v = true -> cast_string v <> Held None.
Proof. destruct v; simpl; try done. by destruct (compound_cast o). Qed.

(** What [validate] lets through: the three required paths hold a non-empty
    string, and [subject] holds whatever was set. *)
Lemma validate_ok (d : Document) (c : Contact) :
  validate d = Ok c <->
  doc_name d = Held (Some (name c)) /\ name c <> EmptyString /\
  doc_email d = Held (Some (email c)) /\ email c <> EmptyString /\
  doc_subject d = Held (subject c) /\
  doc_message d = Held (Some (message c)) /\ message c <> EmptyString /\
  doc_createdAt d = createdAt c.
Proof.
  destruct d as [dn de ds dm dt], c as [n e s m t].
  unfold validate, invalid_paths, to_contact, path_valid. simpl.
  split.
  - destruct dn as [[[|? ?]|]|], de as [[[|? ?]|]|], ds as [[?|]|],
      dm as [[[|? ?]|]|]; simpl; try done; by intros [= <- <- <- <- <-].
  - intros (-> & Hn & -> & He & -> & -> & Hm & ->).
    destruct n, e, m; try done. by destruct s.
Qed.

End ValueFacts.

(** ** The handler *)

Section HandlerFacts.
Context `{JsHost}.

Lemma operator_mail_ok (env : Env) (body : gmap string JsValue) (m : MailOptions) :
  operator_mail env body = Ok m ->
  exists n e s msg,
    toString (field body "name") = Ok n /\
    toString (field body "email") = Ok e /\
    toString (js_or (field body "subject") No_Subject) = Ok s /\
    field body "message" = JsString msg /\
    m = {| mail_from := Js.dq +:+ n +:+ Js.dq +:+ " <" +:+ env_text (EMAIL_USER env) +:+ ">";
           mail_to := JsString "kinshuksaxena3@gmail.com";
           mail_replyTo := Some (field body "email");
           mail_subject := "New Contact Form Message: " +:+ s;
           mail_html := admin_html n e s (Js.replace_newlines msg) |}.
Proof.
  unfold operator_mail, mailOptionsToAdmin, mbind, Result_bind, mret, Result_ret.
  destruct (toString (field body "name")) as [n|]; [|done].
  destruct (toString (js_or (field body "subject") No_Subject)) as [s|]; [|done].
  destruct (toString (field body "email")) as [e|]; [|done].
  destruct (field body "message") as [| | | |msg|]; try done.
  simpl. intros [= <-]. by exists n, e, s, msg.
Qed.

Lemma reply_mail_ok (env : Env) (body : gmap string JsValue) (m : MailOptions) :
  reply_mail env body = Ok m ->
  exists n,
    toString (field body "name") = Ok n /\
    m = {| mail_from := Js.dq +:+ "Kinshuk Saxena" +:+ Js.dq +:+ " <" +:+ env_text (EMAIL_USER env) +:+ ">";
           mail_to := field body "email";
           mail_replyTo := None;
           mail_subject := "Thank you for your message!";
           mail_html := reply_html n |}.
Proof.
  unfold reply_mail, autoReplyOptions, mbind, Result_bind, mret, Result_ret.
  destruct (toString (field body "name")) as [n|]; [|done].
  intros [= <-]. by exists n.
Qed.

(** Once the operator message could be built, so can the acknowledgment:
    its only substitution was converted before. *)
Lemma reply_mail_after_operator (env : Env) (body : gmap string JsValue) (m : MailOptions) :
  operator_mail env body = Ok m -> exists m', reply_mail env body = Ok m'.
Proof.
  intros (n & e & s & msg & Hn & _)%operator_mail_ok.
  unfold reply_mail, autoReplyOptions, mbind, Result_bind. rewrite Hn. by eexists.
Qed.

(** The ways a request can end, by the step that ended it.  [ins] are the
    documents added to the database and [evs] the calls added to the log. *)
Lemma post_api_contact_cases (env : Env) (body : gmap string JsValue) (w : World) :
  exists r ins evs,
    post_api_contact env body w
      = (Ok r, {| db := db w ++ ins; log := log w ++ evs |}) /\
    ((rejected body = true /\ r = bad_request /\ ins = [] /\ evs = []) \/
     (exists e, rejected body = false /\
        save_outcome env (submitted env body) = Throw e /\
        r = internal_error /\ ins = [] /\ evs = [SaveFailed e]) \/
     (exists c e, rejected body = false /\
        save_outcome env (submitted env body) = Ok c /\
        operator_mail env body = Throw e /\
        r = internal_error /\ ins = [c] /\ evs = [Saved c]) \/
     (exists c m1, rejected body = false /\
        save_outcome env (submitted env body) = Ok c /\
        operator_mail env body = Ok m1 /\ transport_accepts env m1 = false /\
        r = internal_error /\ ins = [c] /\ evs = [Saved c; MailFailed m1]) \/
     (exists c m1 m2, rejected body = false /\
        save_outcome env (submitted env body) = Ok c /\
        operator_mail env body = Ok m1 /\ transport_accepts env m1 = true /\
        reply_mail env body = Ok m2 /\ transport_accepts env m2 = false /\
        r = internal_error /\ ins = [c] /\
        evs = [Saved c; MailSent m1; MailFailed m2]) \/
     (exists c m1 m2, rejected body = false /\
        save_outcome env (submitted env body) = Ok c /\
        operator_mail env body = Ok m1 /\ transport_accepts env m1 = true /\
        reply_mail env body = Ok m2 /\ transport_accepts env m2 = true /\
        r = sent_successfully /\ ins = [c] /\
        evs = [Saved c; MailSent m1; MailSent m2])).
Proof.
  unfold post_api_contact, try_catch. cbv zeta.
  fold (rejected body) (submitted env body) (operator_mail env body)
       (reply_mail env body).
  destruct (rejected body) eqn:Hrej.
  { exists bad_request, [], []. split; [|by left].
    destruct w. unfold mret, M_ret. simpl. by rewrite !app_nil_r. }
  unfold mbind, M_bind, save, sendMail, lift, mret, M_ret, record, insert.
  destruct (save_outcome env (submitted env body)) as [c|e] eqn:Hsave; simpl.
  2:{ exists internal_error, [], [SaveFailed e]. split; [by rewrite app_nil_r|].
      right; left. by exists e. }
  destruct (operator_mail env body) as [m1|e] eqn:Hop; simpl.
  2:{ exists internal_error, [c], [Saved c]. split; [done|].
      do 2 right; left. by exists c, e. }
  destruct (reply_mail_after_operator _ _ _ Hop) as [m2 Hre].
  destruct (transport_accepts env m1) eqn:Hm1; simpl.
  2:{ exists internal_error, [c], [Saved c; MailFailed m1].
      split; [by rewrite <- app_assoc|].
      do 3 right; left. by exists c, m1. }
  rewrite Hre. simpl.
  destruct (transport_accepts env m2) eqn:Hm2; simpl.
  - exists sent_successfully, [c], [Saved c; MailSent m1; MailSent m2].
    split; [by rewrite <- !app_assoc|].
    do 5 right. by exists c, m1, m2.
  - exists internal_error, [c], [Saved c; MailSent m1; MailFailed m2].
    split; [by rewrite <- !app_assoc|].
    do 4 right; left. by exists c, m1, m2.
Qed.

End HandlerFacts.

Section RunFacts.
Context `{JsHost}.

Lemma observe (env : Env) (body : gmap string JsValue) (w : World) r ins evs :
  post_api_contact env body w
    = (Ok r, {| db := db w ++ ins; log := log w ++ evs |}) ->
  response env body w = Ok r /\
  stored env body w = db w ++ ins /\
  calls env body w = evs.
Proof.
  unfold response, stored, calls. intros ->. simpl.
  by rewrite drop_app_length.
Qed.

Lemma observed (env : Env) (body : gmap string JsValue) (w w' : World) r :
  post_api_contact env body w = (Ok r, w') ->
  response env body w = Ok r /\
  stored env body w = db w' /\
  calls env body w = drop (length (log w)) (log w').
Proof. unfold response, stored, calls. by intros ->. Qed.

(** The handler always answers: nothing escapes its [catch]. *)
Lemma post_api_contact_answers (env : Env) (body : gmap string JsValue) (w : World) :
  exists r, response env body w = Ok r.
Proof.
  destruct (post_api_contact_cases env body w) as (r & ins & evs & Hrun & _).
  exists r. by apply (observe _ _ _ _ _ _ Hrun).
Qed.

(** The database only grows, and the log is only appended to. *)
Lemma post_api_contact_extends (env : Env) (body : gmap string JsValue) (w : World) :
  db w `prefix_of` stored env body w /\
  log (post_api_contact env body w).2 = log w ++ calls env body w.
Proof.
  destruct (post_api_contact_cases env body w) as (r & ins & evs & Hrun & _).
  destruct (observe _ _ _ _ _ _ Hrun) as (_ & -> & ->).
  split; [by exists ins|]. by rewrite Hrun.
Qed.

(** The 400 answer is given exactly when the guard fires. *)
Lemma bad_request_iff (env : Env) (body : gmap string JsValue) (w : World) :
  response env body w = Ok bad_request <-> rejected body = true.
Proof.
  destruct (post_api_contact_cases env body w) as (r & ins & evs & Hrun & Hcases).
  destruct (observe _ _ _ _ _ _ Hrun) as (-> & _ & _).
  assert (forall r', status r' <> 400 -> Ok r' = Ok bad_request -> rejected body = true)
    as Hother.
  { intros r' Hstatus [= ->]. by destruct Hstatus. }
  destruct Hcases as
    [(Hrej & -> & _) | [(e & Hrej & _ & -> & _) | [(c & e & Hrej & _ & _ & -> & _) |
    [(c & m1 & Hrej & _ & _ & _ & -> & _) |
    [(c & m1 & m2 & Hrej & _ & _ & _ & _ & _ & -> & _) |
     (c & m1 & m2 & Hrej & _ & _ & _ & _ & _ & -> & _)]]]]];
    (split; [|congruence]); try done; by apply Hother.
Qed.

Lemma operator_reply_differ (env : Env) (body : gmap string JsValue) (m1 m2 : MailOptions) :
  operator_mail env body = Ok m1 -> reply_mail env body = Ok m2 -> m1 <> m2.
Proof.
  intros (n & e & s & msg & _ & _ & _ & _ & ->)%operator_mail_ok
         (n' & _ & ->)%reply_mail_ok. done.
Qed.

(** The first message handed to the transport is the operator message, the
    second the acknowledgment, and there is no third. *)
Lemma dispatches_first (env : Env) (body : gmap string JsValue) (w : World) m :
  dispatches (calls env body w) !! 0 = Some m -> operator_mail env body = Ok m.
Proof.
  destruct (post_api_contact_cases env body w) as (r & ins & evs & Hrun & Hcases).
  destruct (observe _ _ _ _ _ _ Hrun) as (_ & _ & ->).
  destruct Hcases as
    [(_ & _ & _ & ->) | [(e & _ & _ & _ & _ & ->) | [(c & e & _ & _ & _ & _ & _ & ->) |
    [(c & m1 & _ & _ & Hop & _ & _ & _ & ->) |
    [(c & m1 & m2 & _ & _ & Hop & _ & _ & _ & _ & _ & ->) |
     (c & m1 & m2 & _ & _ & Hop & _ & _ & _ & _ & _ & ->)]]]]];
    simpl; try done; by intros [= <-].
Qed.

Lemma dispatches_second (env : Env) (body : gmap string JsValue) (w : World) m :
  dispatches (calls env body w) !! 1 = Some m -> reply_mail env body = Ok m.
Proof.
  destruct (post_api_contact_cases env body w) as (r & ins & evs & Hrun & Hcases).
  destruct (observe _ _ _ _ _ _ Hrun) as (_ & _ & ->).
  destruct Hcases as
    [(_ & _ & _ & ->) | [(e & _ & _ & _ & _ & ->) | [(c & e & _ & _ & _ & _ & _ & ->) |
    [(c & m1 & _ & _ & _ & _ & _ & _ & ->) |
    [(c & m1 & m2 & _ & _ & _ & _ & Hre & _ & _ & _ & ->) |
     (c & m1 & m2 & _ & _ & _ & _ & Hre & _ & _ & _ & ->)]]]]];
    simpl; try done; by intros [= <-].
Qed.

(** A stored record is the validated document of the body. *)
Lemma saved_is_submitted (env : Env) (body : gmap string JsValue) (w : World) c :
  Saved c ∈ calls env body w ->
  rejected body = false /\ validate (submitted env body) = Ok c /\
  store_accepts env c = true /\ stored env body w = db w ++ [c].
Proof.
  destruct (post_api_contact_cases env body w) as (r & ins & evs & Hrun & Hcases).
  destruct (observe _ _ _ _ _ _ Hrun) as (_ & -> & ->).
  assert (forall c', save_outcome env (submitted env body) = Ok c' ->
            validate (submitted env body) = Ok c' /\ store_accepts env c' = true)
    as Hsave.
  { unfold save_outcome, mbind, Result_bind. intros c'.
    destruct (validate (submitted env body)) as [c''|]; [|done].
    destruct (store_accepts env c'') eqn:Hacc; [|done]. by intros [= <-]. }
  destruct Hcases as
    [(_ & _ & _ & ->) | [(e & _ & _ & _ & _ & ->) |
    [(c' & e & Hrej & Hs & _ & _ & -> & ->) |
    [(c' & m1 & Hrej & Hs & _ & _ & _ & -> & ->) |
    [(c' & m1 & m2 & Hrej & Hs & _ & _ & _ & _ & _ & -> & ->) |
     (c' & m1 & m2 & Hrej & Hs & _ & _ & _ & _ & _ & -> & ->)]]]]];
    intros Hin; set_unfold in Hin; destruct_or?; simplify_eq;
    destruct (Hsave _ Hs); done.
Qed.

End RunFacts.

(** ** The scenarios, run *)

Section ScenarioRuns.
Context `{JsHost}.

Lemma body_ada_passes : rejected body_ada = false.
Proof. by vm_compute. Qed.

Lemma body_ada_validates (env : Env) :
  validate (submitted env body_ada) = Ok (contact_ada env).
Proof. by vm_compute. Qed.

Lemma body_ada_operator_mail (env : Env) :
  operator_mail env body_ada = Ok (operator_mail_ada env).
Proof. by vm_compute. Qed.

Lemma body_ada_reply_mail (env : Env) :
  reply_mail env body_ada = Ok (reply_mail_ada env).
Proof. by vm_compute. Qed.

Lemma run_operator_mail_down :
  post_api_contact operator_mail_down body_ada empty_world =
  (Ok internal_error,
   {| db := [contact_ada operator_mail_down];
      log := [Saved (contact_ada operator_mail_down);
              MailFailed (operator_mail_ada operator_mail_down)] |}).
Proof. by vm_compute. Qed.

Lemma run_reply_mail_down :
  post_api_contact reply_mail_down body_ada empty_world =
  (Ok internal_error,
   {| db := [contact_ada reply_mail_down];
      log := [Saved (contact_ada reply_mail_down);
              MailSent (operator_mail_ada reply_mail_down);
              MailFailed (reply_mail_ada reply_mail_down)] |}).
Proof. by vm_compute. Qed.

Lemma run_all_up :
  post_api_contact all_up body_ada empty_world =
  (Ok sent_successfully,
   {| db := [contact_ada all_up];
      log := [Saved (contact_ada all_up);
              MailSent (operator_mail_ada all_up);
              MailSent (reply_mail_ada all_up)] |}).
Proof. by vm_compute. Qed.

Lemma run_store_down :
  post_api_contact store_down body_ada empty_world =
  (Ok internal_error, {| db := []; log := [SaveFailed StoreError] |}).
Proof. by vm_compute. Qed.

Lemma run_blank_name :
  post_api_contact all_up body_blank_name empty_world =
  (Ok internal_error,
   {| db := []; log := [SaveFailed (ValidationError ["name"])] |}).
Proof. by vm_compute. Qed.

Lemma run_two_lines :
  post_api_contact all_up body_two_lines empty_world =
  (Ok sent_successfully,
   {| db := [contact_two_lines all_up];
      log := [Saved (contact_two_lines all_up);
              MailSent (operator_mail_two_lines all_up);
              MailSent (reply_mail_two_lines all_up)] |}).
Proof. by vm_compute. Qed.

Lemma run_blank_subject :
  post_api_contact all_up body_blank_subject empty_world =
  (Ok sent_successfully,
   {| db := [contact_blank_subject all_up];
      log := [Saved (contact_blank_subject all_up);
              MailSent
                {| mail_from := Js.dq +:+ "Ada" +:+ Js.dq +:+ " <owner@example.com>";
                   mail_to := JsString "kinshuksaxena3@gmail.com";
                   mail_replyTo := Some (JsString "ada@x.com");
                   mail_subject := "New Contact Form Message:    ";
                   mail_html := admin_html "Ada" "ada@x.com" "   " "Hello" |};
              MailSent
                {| mail_from := Js.dq +:+ "Kinshuk Saxena" +:+ Js.dq +:+ " <owner@example.com>";
                   mail_to := JsString "ada@x.com";
                   mail_replyTo := None;
                   mail_subject := "Thank you for your message!";
                   mail_html := reply_html "Ada" |}] |}).
Proof. by vm_compute. Qed.

Lemma run_markup :
  post_api_contact all_up body_markup empty_world =
  (Ok sent_successfully,
   {| db := [{| name := "<b>Ada</b>"; email := "ada@x.com";
                subject := Some "No Subject"; message := "Hello";
                createdAt := Date_now all_up |}];
      log := [Saved {| name := "<b>Ada</b>"; email := "ada@x.com";
                       subject := Some "No Subject"; message := "Hello";
                       createdAt := Date_now all_up |};
              MailSent
                {| mail_from := Js.dq +:+ "<b>Ada</b>" +:+ Js.dq +:+ " <owner@example.com>";
                   mail_to := JsString "kinshuksaxena3@gmail.com";
                   mail_replyTo := Some (JsString "ada@x.com");
                   mail_subject := "New Contact Form Message: No Subject";
                   mail_html := admin_html "<b>Ada</b>" "ada@x.com" "No Subject" "Hello" |};
              MailSent
                {| mail_from := Js.dq +:+ "Kinshuk Saxena" +:+ Js.dq +:+ " <owner@example.com>";
                   mail_to := JsString "ada@x.com";
                   mail_replyTo := None;
                   mail_subject := "Thank you for your message!";
                   mail_html := reply_html "<b>Ada</b>" |}] |}).
Proof. by vm_compute. Qed.

Lemma run_no_name :
  post_api_contact all_up body_no_name empty_world = (Ok bad_request, empty_world).
Proof. by vm_compute. Qed.

End ScenarioRuns.

(** ** The templates *)

Lemma occurs_in_trans (a b c : string) :
  Js.occurs_in a b -> Js.occurs_in b c -> Js.occurs_in a c.
Proof.
  intros (p1 & q1 & ->) (p2 & q2 & ->).
  exists (p2 +:+ p1), (q1 +:+ q2). by rewrite !sapp_assoc.
Qed.

(** A piece [t] is found between two constant segments once the first ends
    with what opens it and the second starts with what closes it. *)
Lemma occurs_between (l r opening closing t before after : string) :
  (exists l', l = l' +:+ opening) ->
  String.prefix closing r = true ->
  Js.occurs_in (opening +:+ t +:+ closing) (before +:+ l +:+ t +:+ r +:+ after).
Proof.
  intros [l' ->] [r' ->]%prefix_occurs.
  exists (before +:+ l'), (r' +:+ after). by rewrite !sapp_assoc.
Qed.

Lemma ends_with (l opening : string) :
  l = String.substring 0 (String.length l - String.length opening) l +:+ opening ->
  exists l', l = l' +:+ opening.
Proof. intros Hl. by eexists. Qed.

Lemma admin_html_name (n e s m : string) :
  Js.occurs_in (value_div n) (admin_html n e s m).
Proof.
  unfold admin_html, value_div.
  apply (occurs_between admin_html_0 admin_html_1 value_open "</div>" n EmptyString).
  - apply ends_with. by vm_compute.
  - by vm_compute.
Qed.

Lemma admin_html_email (n e s m : string) :
  Js.occurs_in (mailto_link e) (admin_html n e s m).
Proof.
  unfold admin_html, mailto_link.
  assert (exists l', admin_html_1 = l' +:+ "<a href=" +:+ Js.dq +:+ "mailto:")
    as [l' ->] by (apply ends_with; by vm_compute).
  assert (String.prefix "</a>" admin_html_3 = true)
    as [r' ->]%prefix_occurs by by vm_compute.
  exists (admin_html_0 +:+ n +:+ l'),
         (r' +:+ s +:+ admin_html_4 +:+ m +:+ admin_html_5).
  by rewrite !sapp_assoc.
Qed.

Lemma admin_html_subject (n e s m : string) :
  Js.occurs_in (value_div s) (admin_html n e s m).
Proof.
  unfold admin_html, value_div.
  assert (exists l', admin_html_3 = l' +:+ value_open)
    as [l' ->] by (apply ends_with; by vm_compute).
  assert (String.prefix "</div>" admin_html_4 = true)
    as [r' ->]%prefix_occurs by by vm_compute.
  exists (admin_html_0 +:+ n +:+ admin_html_1 +:+ e +:+ admin_html_2 +:+ e +:+ l'),
         (r' +:+ m +:+ admin_html_5).
  by rewrite !sapp_assoc.
Qed.

Lemma admin_html_message (n e s m : string) :
  Js.occurs_in (value_div m) (admin_html n e s m).
Proof.
  unfold admin_html, value_div.
  assert (exists l', admin_html_4 = l' +:+ value_open)
    as [l' ->] by (apply ends_with; by vm_compute).
  assert (String.prefix "</div>" admin_html_5 = true)
    as [r' ->]%prefix_occurs by by vm_compute.
  exists (admin_html_0 +:+ n +:+ admin_html_1 +:+ e +:+ admin_html_2 +:+ e
          +:+ admin_html_3 +:+ s +:+ l'), r'.
  by rewrite !sapp_assoc.
Qed.

Lemma reply_html_name (n : string) : Js.occurs_in (greeting n) (reply_html n).
Proof.
  unfold reply_html, greeting.
  assert (exists l', reply_html_0 = l' +:+ "<p>Hi ")
    as [l' ->] by (apply ends_with; by vm_compute).
  assert (String.prefix ",</p>" reply_html_1 = true)
    as [r' ->]%prefix_occurs by by vm_compute.
  exists l', r'. by rewrite !sapp_assoc.
Qed.

Lemma occurs_in_value_div (t : string) : Js.occurs_in t (value_div t).
Proof. by exists value_open, "</div>". Qed.

Lemma occurs_in_greeting (n : string) : Js.occurs_in n (greeting n).
Proof. by exists "<p>Hi ", ",</p>". Qed.

(** * The claims *)

(** Splits a run into the six ways it can end and names what it showed. *)
Ltac run_cases env body w :=
  let r := fresh "r" in
  let ins := fresh "ins" in
  let evs := fresh "evs" in
  let Hrun := fresh "Hrun" in
  let Hcases := fresh "Hcases" in
  let Hresp := fresh "Hresp" in
  let Hstored := fresh "Hstored" in
  let Hcalls := fresh "Hcalls" in
  destruct (post_api_contact_cases env body w) as (r & ins & evs & Hrun & Hcases);
  destruct (observe _ _ _ _ _ _ Hrun) as (Hresp & Hstored & Hcalls);
  rewrite ?Hresp, ?Hstored, ?Hcalls in *;
  clear Hrun Hresp Hstored Hcalls;
  destruct Hcases as
    [(Hrej & -> & -> & ->) |
    [(err & Hrej & Hsave & -> & -> & ->) |
    [(c' & err & Hrej & Hsave & Hop & -> & -> & ->) |
    [(c' & m1' & Hrej & Hsave & Hop & Hacc1 & -> & -> & ->) |
    [(c' & m1' & m2' & Hrej & Hsave & Hop & Hacc1 & Hre & Hacc2 & -> & -> & ->) |
     (c' & m1' & m2' & Hrej & Hsave & Hop & Hacc1 & Hre & Hacc2 & -> & -> & ->)]]]]].

Section Claims.
Context `{JsHost}.

Lemma Ok_inj {A} (a b : A) : Ok a = Ok b -> a = b.
Proof. by intros [= ->]. Qed.

Lemma responses_differ :
  bad_request <> sent_successfully /\ bad_request <> internal_error /\
  sent_successfully <> internal_error.
Proof.
  split_and!; intros Heq; apply (f_equal status) in Heq; simpl in Heq;
    discriminate Heq.
Qed.

(** C1, as the code has it.  The two sends are chained: when the dispatch
    of the operator message fails the handler leaves for its catch block, so
    the operator message is the only one handed to the transport and the
    answer is the internal error; when it succeeds the acknowledgment is
    handed to the transport next. *)
Theorem acknowledgment_follows_operator_mail
    (env : Env) (body : gmap string JsValue) (w : World) (m1 : MailOptions) :
  operator_mail env body = Ok m1 ->
  (MailFailed m1 ∈ calls env body w ->
     response env body w = Ok internal_error /\
     dispatches (calls env body w) = [m1]) /\
  (MailSent m1 ∈ calls env body w ->
     exists m2, reply_mail env body = Ok m2 /\
       dispatches (calls env body w) = [m1; m2]).
Proof.
  intros Hm1. run_cases env body w; try rewrite Hm1 in Hop; simplify_eq;
    (split; intros Hin; set_unfold in Hin; destruct_or?; simplify_eq).
  all: try done.
  all: try by destruct (operator_reply_differ _ _ _ _ Hm1 Hre).
  all: by eexists.
Qed.

(** C2, as the code has it.  When [name], [email] or [message] is missing
    from the body, or is [null], [false], a zero or the empty string, the
    answer is the 400 response with [success] false, nothing is saved and
    nothing is handed to the transport. *)
Theorem falsy_required_field_rejected
    (env : Env) (body : gmap string JsValue) (w : World) (k : string) :
  k ∈ ["name"; "email"; "message"] ->
  (body !! k = None \/ body !! k = Some JsNull \/
   body !! k = Some (JsBool false) \/ body !! k = Some (JsString EmptyString) \/
   exists n, body !! k = Some (JsNumber n) /\ number_is_zero n = true) ->
  response env body w = Ok bad_request /\
  status bad_request = 400 /\
  json bad_request !! "success" = Some (JsBool false) /\
  calls env body w = [] /\
  stored env body w = db w.
Proof.
  intros Hk Hfalsy.
  assert (truthy (field body k) = false) as Hfield.
  { unfold field.
    destruct Hfalsy as [-> | [-> | [-> | [-> | (n & -> & Hn)]]]]; simpl; try done.
    by rewrite Hn. }
  assert (rejected body = true) as Hguard.
  { unfold rejected, missing_required.
    set_unfold in Hk. destruct_or?; subst; try done; rewrite Hfield; simpl;
      by rewrite ?orb_true_r. }
  run_cases env body w; try congruence.
  by rewrite !app_nil_r.
Qed.

(** C3.  When the save succeeded and a dispatch of either message failed,
    the answer is the 500 response with [success] false and the fixed text,
    the same for every error, and the stored record is still in the
    database: it is the one document this request added. *)
Theorem dispatch_failure_keeps_record
    (env : Env) (body : gmap string JsValue) (w : World)
    (c : Contact) (m : MailOptions) :
  Saved c ∈ calls env body w ->
  MailFailed m ∈ calls env body w ->
  response env body w = Ok internal_error /\
  status internal_error = 500 /\
  json internal_error !! "success" = Some (JsBool false) /\
  json internal_error !! "message"
    = Some (JsString "An internal server error occurred. Please try again later.") /\
  stored env body w = db w ++ [c].
Proof.
  intros Hsaved Hfailed.
  destruct (saved_is_submitted _ _ _ _ Hsaved) as (_ & _ & _ & Hdb).
  split_and!; try done.
  clear Hsaved Hdb. revert Hfailed.
  run_cases env body w; intros Hin; set_unfold in Hin; destruct_or?; by simplify_eq.
Qed.

(** C4.  When the request passed the guard and the save failed, no message
    is handed to the transport, nothing is added to the database, and the
    answer is the 500 response with [success] false. *)
Theorem save_failure_sends_no_mail
    (env : Env) (body : gmap string JsValue) (w : World) (e : Error) :
  rejected body = false ->
  SaveFailed e ∈ calls env body w ->
  dispatches (calls env body w) = [] /\
  stored env body w = db w /\
  response env body w = Ok internal_error /\
  status internal_error = 500 /\
  json internal_error !! "success" = Some (JsBool false).
Proof.
  intros Hpass.
  run_cases env body w; intros Hin; set_unfold in Hin; destruct_or?; simplify_eq.
  by rewrite app_nil_r.
Qed.

(** C5, as the code has it.  The subject of a stored record is never
    missing.  When the subject of the body is absent, empty or otherwise falsy
    it is exactly "No Subject"; otherwise it is the text of the body's subject,
    trimmed, and for a string that is the empty string exactly when the
    string is white space only. *)
Theorem stored_subject
    (env : Env) (body : gmap string JsValue) (w : World) (c : Contact) :
  Saved c ∈ calls env body w ->
  subject c <> None /\
  (truthy (field body "subject") = false -> subject c = Some "No Subject") /\
  (truthy (field body "subject") = true ->
     exists t, cast_string (field body "subject") = Held (Some t) /\
       subject c = Some (Js.trim t)) /\
  (forall s, field body "subject" = JsString s -> s <> EmptyString ->
     subject c = Some (Js.trim s) /\
     (Js.trim s = EmptyString <-> Js.all_chars Js.is_white_space s = true)).
Proof.
  intros (_ & Hvalid & _)%saved_is_submitted.
  apply validate_ok in Hvalid as (_ & _ & _ & _ & Hsubject & _).
  unfold submitted, new_Contact in Hsubject. simpl in Hsubject.
  assert (truthy (field body "subject") = true ->
          exists t, cast_string (field body "subject") = Held (Some t) /\
            subject c = Some (Js.trim t)) as Htruthy.
  { intros Ht. rewrite (js_or_truthy _ _ Ht) in Hsubject.
    pose proof (cast_string_truthy _ Ht) as Hcast.
    unfold set_path in Hsubject.
    destruct (cast_string (field body "subject")) as [[t|]|]; try done.
    exists t. split; [done|]. by injection Hsubject as <-. }
  assert (truthy (field body "subject") = false -> subject c = Some "No Subject")
    as Hfalsy.
  { intros Hf. rewrite (js_or_falsy _ _ Hf) in Hsubject.
    by injection Hsubject as <-. }
  split_and!; try done.
  - destruct (truthy (field body "subject")) eqn:Ht.
    + destruct (Htruthy eq_refl) as (t & _ & ->). done.
    + by rewrite Hfalsy.
  - intros s Hs Hne. split.
    + destruct Htruthy as (t & Hcast & ->).
      { rewrite Hs. simpl. by destruct s. }
      rewrite Hs in Hcast. by injection Hcast as ->.
    + by rewrite <- is_empty_true, trim_empty.
Qed.

(** C6.  Scenario A: for the body [{name:"Ada", email:"ADA@X.COM",
    message:"Hello"}], with a database that takes the record and a transport
    that takes the two messages, the answer is the 200 response with
    [success] true and the record added to the database has the email
    "ada@x.com" and the subject "No Subject". *)
Theorem scenario_A_accepted (env : Env) (w : World) :
  store_accepts env (contact_ada env) = true ->
  transport_accepts env (operator_mail_ada env) = true ->
  transport_accepts env (reply_mail_ada env) = true ->
  response env body_ada w = Ok sent_successfully /\
  status sent_successfully = 200 /\
  json sent_successfully !! "success" = Some (JsBool true) /\
  stored env body_ada w = db w ++ [contact_ada env] /\
  email (contact_ada env) = "ada@x.com" /\
  subject (contact_ada env) = Some "No Subject".
Proof.
  intros Hstore Hoperator Hreply.
  assert (save_outcome env (submitted env body_ada) = Ok (contact_ada env))
    as Hsaved.
  { unfold save_outcome. rewrite body_ada_validates. simpl. by rewrite Hstore. }
  pose proof body_ada_passes as Hpass.
  pose proof (body_ada_operator_mail env) as Hm1.
  pose proof (body_ada_reply_mail env) as Hm2.
  run_cases env body_ada w;
    try rewrite Hsaved in Hsave; try rewrite Hm1 in Hop; try rewrite Hm2 in Hre;
    simplify_eq; try congruence.
  done.
Qed.

(** C7, as the code has it.  The texts of [name], [subject] and [message]
    are put into the two bodies as they are, without any escaping; a string
    is its own text, so whatever markup it holds occurs in the body
    unchanged.  The one rewriting is that of the line feeds of [message]. *)
Theorem fields_embedded_unescaped
    (env : Env) (body : gmap string JsValue) (w : World) :
  (forall m1, dispatches (calls env body w) !! 0 = Some m1 ->
     exists n e s msg,
       toString (field body "name") = Ok n /\
       toString (field body "email") = Ok e /\
       toString (js_or (field body "subject") No_Subject) = Ok s /\
       field body "message" = JsString msg /\
       mail_html m1 = admin_html n e s (Js.replace_newlines msg) /\
       Js.occurs_in (value_div n) (mail_html m1) /\
       Js.occurs_in (value_div s) (mail_html m1) /\
       Js.occurs_in (value_div (Js.replace_newlines msg)) (mail_html m1) /\
       (forall t, Js.occurs_in t n -> Js.occurs_in t (mail_html m1))) /\
  (forall m2, dispatches (calls env body w) !! 1 = Some m2 ->
     exists n,
       toString (field body "name") = Ok n /\
       mail_html m2 = reply_html n /\
       Js.occurs_in (greeting n) (mail_html m2) /\
       (forall t, Js.occurs_in t n -> Js.occurs_in t (mail_html m2))) /\
  (forall t, toString (JsString t) = Ok t).
Proof.
  split_and!; [| |done].
  - intros m1 (n & e & s & msg & Hn & He & Hs & Hmsg & ->)%dispatches_first%operator_mail_ok.
    exists n, e, s, msg. simpl. split_and!; try done.
    + apply admin_html_name.
    + apply admin_html_subject.
    + apply admin_html_message.
    + intros t Ht. eapply occurs_in_trans; [|apply admin_html_name].
      eapply occurs_in_trans; [done|apply occurs_in_value_div].
  - intros m2 (n & Hn & ->)%dispatches_second%reply_mail_ok.
    exists n. simpl. split_and!; try done.
    + apply reply_html_name.
    + intros t Ht. eapply occurs_in_trans; [|apply reply_html_name].
      eapply occurs_in_trans; [done|apply occurs_in_greeting].
Qed.

(** C8, as the code has it.  The two messages are built from the request
    body, not from the stored record.  The operator message (the first
    handed to the transport) has [replyTo] set to the email of the body as it
    was sent, the subject "New Contact Form Message: " followed by the
    subject of the body as it was sent or by "No Subject", and a body in which
    that email is a mail-to link and the message is shown with every line
    feed turned into the break tag.  The acknowledgment (the second) goes to
    the email of the body as it was sent, under the fixed subject.  An
    accepted request hands over exactly these two. *)
Theorem mail_options_shape
    (env : Env) (body : gmap string JsValue) (w : World) :
  (forall m1, dispatches (calls env body w) !! 0 = Some m1 ->
     mail_replyTo m1 = Some (field body "email") /\
     exists s e msg,
       toString (js_or (field body "subject") No_Subject) = Ok s /\
       mail_subject m1 = "New Contact Form Message: " +:+ s /\
       toString (field body "email") = Ok e /\
       Js.occurs_in (mailto_link e) (mail_html m1) /\
       field body "message" = JsString msg /\
       Js.occurs_in (value_div (Js.replace_newlines msg)) (mail_html m1) /\
       Js.has_char Js.is_line_feed (Js.replace_newlines msg) = false) /\
  (forall m2, dispatches (calls env body w) !! 1 = Some m2 ->
     mail_to m2 = field body "email" /\
     mail_subject m2 = "Thank you for your message!") /\
  (response env body w = Ok sent_successfully ->
     exists m1 m2, dispatches (calls env body w) = [m1; m2]).
Proof.
  split_and!.
  - intros m1 (n & e & s & msg & Hn & He & Hs & Hmsg & ->)%dispatches_first%operator_mail_ok.
    simpl. split; [done|]. exists s, e, msg. split_and!; try done.
    + apply admin_html_email.
    + apply admin_html_message.
    + apply replace_newlines_no_newline.
  - by intros m2 (n & Hn & ->)%dispatches_second%reply_mail_ok.
  - destruct responses_differ as (Hd1 & Hd2 & Hd3).
    run_cases env body w; intros Hr%Ok_inj;
      try (by destruct (Hd1 Hr)); try (by destruct (Hd3 (eq_sym Hr))).
    by exists m1', m2'.
Qed.

(** C9.  Both messages are built from the fields of the body, not from the
    stored record.  The acknowledgment goes to the email as it was sent,
    while the record holds it lower-cased and trimmed, so an email with a
    capital letter makes the two differ; the operator message carries the
    name and the subject as they were sent, while the record holds them
    trimmed. *)
Theorem mails_built_from_body
    (env : Env) (body : gmap string JsValue) (w : World) (c : Contact) :
  Saved c ∈ calls env body w ->
  (forall m2, dispatches (calls env body w) !! 1 = Some m2 ->
     mail_to m2 = field body "email" /\
     forall e, field body "email" = JsString e ->
       email c = Js.trim (Js.toLowerCase e) /\
       (Js.has_char Js.is_upper e = true -> mail_to m2 <> JsString (email c))) /\
  (forall m1, dispatches (calls env body w) !! 0 = Some m1 ->
     (forall n, field body "name" = JsString n ->
        name c = Js.trim n /\
        Js.occurs_in (value_div n) (mail_html m1)) /\
     (forall s, field body "subject" = JsString s -> s <> EmptyString ->
        subject c = Some (Js.trim s) /\
        mail_subject m1 = "New Contact Form Message: " +:+ s /\
        Js.occurs_in (value_div s) (mail_html m1))).
Proof.
  intros (_ & Hvalid & _)%saved_is_submitted.
  apply validate_ok in Hvalid as (Hname & _ & Hemail & _ & Hsubject & _).
  unfold submitted, new_Contact in Hname, Hemail, Hsubject.
  simpl in Hname, Hemail, Hsubject.
  split.
  - intros m2 (n & Hn & ->)%dispatches_second%reply_mail_ok. simpl.
    split; [done|]. intros e He. rewrite He in *.
    injection Hemail as Hemail. rewrite <- Hemail.
    split; [done|]. intros Hup [= Heq]. by apply (upper_not_normalized e).
  - intros m1 (n & e & s & msg & Hn & He & Hs & Hmsg & ->)%dispatches_first%operator_mail_ok.
    simpl. split.
    + intros n' Hn'. rewrite Hn' in *. injection Hname as <-.
      injection Hn as <-. split; [done|]. apply admin_html_name.
    + intros s' Hs' Hne.
      assert (truthy (field body "subject") = true) as Ht.
      { rewrite Hs'. simpl. by destruct s'. }
      rewrite (js_or_truthy _ _ Ht), Hs' in *. injection Hsubject as <-.
      injection Hs as <-. split_and!; try done. apply admin_html_subject.
Qed.

(** C10.  Every answer of the endpoint is an object with exactly the two
    fields [success], a boolean, and [message], a string, and it is one of
    three fixed answers.  Past the guard there are only two: whatever failed
    (the save, be it the schema's validation or the database, the building
    of a message, or either dispatch) the answer is the same 500 response
    with the same text; the 200 response is given only after the save and both
    dispatches succeeded. *)
Theorem failures_answer_alike
    (env : Env) (body : gmap string JsValue) (w : World) :
  exists r, response env body w = Ok r /\
    (r = bad_request \/ r = sent_successfully \/ r = internal_error) /\
    dom (json r) = ({[ "success"; "message" ]} : gset string) /\
    (exists b t, json r !! "success" = Some (JsBool b) /\
       json r !! "message" = Some (JsString t)) /\
    (rejected body = false -> r = sent_successfully \/ r = internal_error) /\
    (forall e, SaveFailed e ∈ calls env body w -> r = internal_error) /\
    (forall m, MailFailed m ∈ calls env body w -> r = internal_error) /\
    (r = sent_successfully ->
       exists c m1 m2, calls env body w = [Saved c; MailSent m1; MailSent m2]) /\
    (r = internal_error ->
       status r = 500 /\
       json r = {[ "success" := JsBool false;
                   "message" := JsString "An internal server error occurred. Please try again later." ]}).
Proof.
  assert (forall code b t,
    dom (json (respond code b t)) = ({[ "success"; "message" ]} : gset string) /\
    (exists b' t', json (respond code b t) !! "success" = Some (JsBool b') /\
       json (respond code b t) !! "message" = Some (JsString t'))) as Hshape.
  { intros code b t. unfold respond. simpl. split.
    - by rewrite dom_insert_L, dom_singleton_L.
    - exists b, t. by split. }
  destruct responses_differ as (Hd1 & Hd2 & Hd3).
  run_cases env body w; eexists; (split; [reflexivity|]); split_and!;
    try apply Hshape; try congruence;
    try (intros ? Hin; set_unfold in Hin; destruct_or?; by simplify_eq).
  all: try (intros _).
  all: try (right; by right).
  all: try (right; by left).
  all: try by right.
  all: try by left.
  all: try by split.
  by exists c', m1', m2'.
Qed.

End Claims.

(** * The claims on concrete requests *)

Section Concrete.
Local Existing Instance integer_host.

(** C1 as stated fails.  Scenario D: the record is saved, the transport
    refuses the operator message and would take the acknowledgment; the
    acknowledgment is never handed to the transport. *)
Lemma operator_failure_skips_acknowledgment :
  rejected body_ada = false /\
  stored operator_mail_down body_ada empty_world = [contact_ada operator_mail_down] /\
  calls operator_mail_down body_ada empty_world
    = [Saved (contact_ada operator_mail_down);
       MailFailed (operator_mail_ada operator_mail_down)] /\
  reply_mail operator_mail_down body_ada = Ok (reply_mail_ada operator_mail_down) /\
  transport_accepts operator_mail_down (reply_mail_ada operator_mail_down) = true /\
  ~ (MailSent (reply_mail_ada operator_mail_down)
       ∈ calls operator_mail_down body_ada empty_world \/
     MailFailed (reply_mail_ada operator_mail_down)
       ∈ calls operator_mail_down body_ada empty_world).
Proof.
  destruct (observed _ _ _ _ _ run_operator_mail_down) as (_ & Hdb & Hcalls).
  rewrite Hdb, Hcalls. simpl.
  split_and!; try done; try apply body_ada_passes; try apply body_ada_reply_mail.
  intros [Hin | Hin]; set_unfold in Hin; destruct_or?; simplify_eq.
Qed.

Lemma acknowledgment_follows_operator_mail_witness :
  operator_mail operator_mail_down body_ada = Ok (operator_mail_ada operator_mail_down) /\
  MailFailed (operator_mail_ada operator_mail_down)
    ∈ calls operator_mail_down body_ada empty_world /\
  response operator_mail_down body_ada empty_world = Ok internal_error /\
  dispatches (calls operator_mail_down body_ada empty_world)
    = [operator_mail_ada operator_mail_down].
Proof.
  assert (MailFailed (operator_mail_ada operator_mail_down)
            ∈ calls operator_mail_down body_ada empty_world) as Hfailed.
  { vm_compute. apply list_elem_of_further, list_elem_of_here. }
  split; [apply body_ada_operator_mail|]. split; [exact Hfailed|].
  exact (proj1 (acknowledgment_follows_operator_mail
                  operator_mail_down body_ada empty_world
                  (operator_mail_ada operator_mail_down)
                  (body_ada_operator_mail operator_mail_down)) Hfailed).
Defined.

(** C2 as stated fails.  A name of three spaces is empty after trimming, yet
    it passes the guard: [save] is called, the schema rejects the document,
    and the answer is the 500 response, not the 400 one. *)
Lemma blank_name_reaches_save :
  body_blank_name !! "name" = Some (JsString "   ") /\
  Js.trim "   " = EmptyString /\
  response all_up body_blank_name empty_world = Ok internal_error /\
  status internal_error = 500 /\
  internal_error <> bad_request /\
  calls all_up body_blank_name empty_world = [SaveFailed (ValidationError ["name"])].
Proof.
  destruct (observed _ _ _ _ _ run_blank_name) as (Hr & _ & Hcalls).
  rewrite Hr, Hcalls.
  split_and!; [by vm_compute | by vm_compute | reflexivity | reflexivity | | reflexivity].
  intros Heq. symmetry in Heq. by destruct (proj1 (proj2 responses_differ)).
Qed.

(** A truthy value that is not a string passes the guard too: the number 7
    as a name is stored as the text "7" and the request is accepted. *)
Lemma numeric_name_accepted :
  response all_up body_numeric_name empty_world = Ok sent_successfully /\
  name <$> stored all_up body_numeric_name empty_world = ["7"].
Proof. by vm_compute. Qed.

Lemma falsy_required_field_rejected_witness :
  "name" ∈ ["name"; "email"; "message"] /\
  body_no_name !! "name" = None /\
  response all_up body_no_name empty_world = Ok bad_request /\
  calls all_up body_no_name empty_world = [].
Proof.
  assert (("name" : string) ∈ ["name"; "email"; "message"]) as Hk
    by apply list_elem_of_here.
  assert (body_no_name !! "name" = None) as Hmissing by (vm_compute; reflexivity).
  destruct (falsy_required_field_rejected all_up body_no_name empty_world
              "name" Hk (or_introl Hmissing)) as (Hr & _ & _ & Hcalls & _).
  split_and!; assumption.
Defined.

Lemma dispatch_failure_keeps_record_witness :
  Saved (contact_ada reply_mail_down) ∈ calls reply_mail_down body_ada empty_world /\
  MailFailed (reply_mail_ada reply_mail_down)
    ∈ calls reply_mail_down body_ada empty_world /\
  response reply_mail_down body_ada empty_world = Ok internal_error /\
  stored reply_mail_down body_ada empty_world = [contact_ada reply_mail_down].
Proof.
  assert (Saved (contact_ada reply_mail_down)
            ∈ calls reply_mail_down body_ada empty_world) as Hsaved.
  { vm_compute. apply list_elem_of_here. }
  assert (MailFailed (reply_mail_ada reply_mail_down)
            ∈ calls reply_mail_down body_ada empty_world) as Hfailed.
  { vm_compute. apply list_elem_of_further, list_elem_of_further, list_elem_of_here. }
  destruct (dispatch_failure_keeps_record reply_mail_down body_ada empty_world
              _ _ Hsaved Hfailed) as (Hr & _ & _ & _ & Hdb).
  split_and!; assumption.
Defined.

Lemma save_failure_sends_no_mail_witness :
  rejected body_ada = false /\
  SaveFailed StoreError ∈ calls store_down body_ada empty_world /\
  dispatches (calls store_down body_ada empty_world) = [] /\
  stored store_down body_ada empty_world = [] /\
  response store_down body_ada empty_world = Ok internal_error.
Proof.
  assert (SaveFailed StoreError ∈ calls store_down body_ada empty_world) as Hfailed.
  { vm_compute. apply list_elem_of_here. }
  destruct (save_failure_sends_no_mail store_down body_ada empty_world
              StoreError body_ada_passes Hfailed) as (Hnone & Hdb & Hr & _).
  split_and!; try assumption. apply body_ada_passes.
Defined.

(** C5 as stated fails.  A subject of three spaces is truthy, so it is not
    replaced by the default; the schema trims it, and the request is accepted
    with the empty string stored as its subject. *)
Lemma blank_subject_stored_empty :
  body_blank_subject !! "subject" = Some (JsString "   ") /\
  response all_up body_blank_subject empty_world = Ok sent_successfully /\
  stored all_up body_blank_subject empty_world = [contact_blank_subject all_up] /\
  subject (contact_blank_subject all_up) = Some EmptyString.
Proof.
  destruct (observed _ _ _ _ _ run_blank_subject) as (Hr & Hdb & _).
  rewrite Hr, Hdb.
  split_and!; [by vm_compute | reflexivity | reflexivity | reflexivity].
Qed.

Lemma stored_subject_witness :
  Saved (contact_two_lines all_up) ∈ calls all_up body_two_lines empty_world /\
  subject (contact_two_lines all_up) = Some (Js.trim " Hi ").
Proof.
  assert (Saved (contact_two_lines all_up)
            ∈ calls all_up body_two_lines empty_world) as Hsaved.
  { vm_compute. apply list_elem_of_here. }
  split; [exact Hsaved|].
  destruct (stored_subject all_up body_two_lines empty_world _ Hsaved)
    as (_ & _ & _ & Hstring).
  apply (Hstring " Hi "); [by vm_compute | discriminate].
Defined.

Lemma scenario_A_accepted_witness :
  store_accepts all_up (contact_ada all_up) = true /\
  transport_accepts all_up (operator_mail_ada all_up) = true /\
  transport_accepts all_up (reply_mail_ada all_up) = true /\
  response all_up body_ada empty_world = Ok sent_successfully /\
  stored all_up body_ada empty_world = [contact_ada all_up].
Proof.
  destruct (scenario_A_accepted all_up empty_world eq_refl eq_refl eq_refl)
    as (Hr & _ & _ & Hdb & _).
  split_and!; try reflexivity; assumption.
Defined.

(** C7 as stated fails.  A name with markup in it reaches both bodies as
    markup: the tags occur in them as they were sent, and their escaped form
    does not. *)
Lemma markup_not_escaped :
  body_markup !! "name" = Some (JsString "<b>Ada</b>") /\
  mail_html <$> dispatches (calls all_up body_markup empty_world)
    = [admin_html "<b>Ada</b>" "ada@x.com" "No Subject" "Hello";
       reply_html "<b>Ada</b>"] /\
  Js.occurs_in "<b>Ada</b>" (admin_html "<b>Ada</b>" "ada@x.com" "No Subject" "Hello") /\
  ~ Js.occurs_in "&lt;b&gt;Ada&lt;/b&gt;"
      (admin_html "<b>Ada</b>" "ada@x.com" "No Subject" "Hello") /\
  Js.occurs_in "<b>Ada</b>" (reply_html "<b>Ada</b>") /\
  ~ Js.occurs_in "&lt;b&gt;Ada&lt;/b&gt;" (reply_html "<b>Ada</b>").
Proof.
  destruct (observed _ _ _ _ _ run_markup) as (_ & _ & Hcalls).
  rewrite Hcalls. rewrite <- !includes_occurs.
  split_and!; [by vm_compute | reflexivity | by vm_compute | | by vm_compute |].
  - intros Hin. vm_compute in Hin. discriminate Hin.
  - intros Hin. vm_compute in Hin. discriminate Hin.
Qed.

Lemma fields_embedded_unescaped_witness :
  dispatches (calls all_up body_two_lines empty_world) !! 0
    = Some (operator_mail_two_lines all_up) /\
  Js.occurs_in (value_div " Ada ") (mail_html (operator_mail_two_lines all_up)).
Proof.
  assert (dispatches (calls all_up body_two_lines empty_world) !! 0
            = Some (operator_mail_two_lines all_up)) as Hfirst
    by (vm_compute; reflexivity).
  split; [exact Hfirst|].
  destruct (proj1 (fields_embedded_unescaped all_up body_two_lines empty_world)
              _ Hfirst) as (n & e & s & msg & Hn & _ & _ & _ & _ & Hin & _).
  assert (toString (field body_two_lines "name") = Ok " Ada ") as Hname
    by (vm_compute; reflexivity).
  rewrite Hname in Hn. injection Hn as <-. exact Hin.
Defined.

(** C8 as stated fails when it is read of the stored record.  The request
    with untrimmed fields and a capital in its email is accepted; the record
    holds the subject "Hi" and the email "ada@x.com", while the operator
    message has the subject line of the untrimmed " Hi " and replies to
    "Ada@X.com", and the acknowledgment goes to "Ada@X.com". *)
Lemma mail_options_not_from_record :
  response all_up body_two_lines empty_world = Ok sent_successfully /\
  stored all_up body_two_lines empty_world = [contact_two_lines all_up] /\
  dispatches (calls all_up body_two_lines empty_world)
    = [operator_mail_two_lines all_up; reply_mail_two_lines all_up] /\
  subject (contact_two_lines all_up) = Some "Hi" /\
  email (contact_two_lines all_up) = "ada@x.com" /\
  mail_subject (operator_mail_two_lines all_up)
    <> "New Contact Form Message: " +:+ "Hi" /\
  mail_replyTo (operator_mail_two_lines all_up)
    <> Some (JsString (email (contact_two_lines all_up))) /\
  mail_to (reply_mail_two_lines all_up)
    <> JsString (email (contact_two_lines all_up)).
Proof.
  destruct (observed _ _ _ _ _ run_two_lines) as (Hr & Hdb & Hcalls).
  rewrite Hr, Hdb, Hcalls.
  split_and!; try reflexivity; simpl; intros Heq; vm_compute in Heq;
    discriminate Heq.
Qed.

Lemma mail_options_shape_witness :
  dispatches (calls all_up body_two_lines empty_world) !! 0
    = Some (operator_mail_two_lines all_up) /\
  dispatches (calls all_up body_two_lines empty_world) !! 1
    = Some (reply_mail_two_lines all_up) /\
  response all_up body_two_lines empty_world = Ok sent_successfully /\
  mail_replyTo (operator_mail_two_lines all_up)
    = Some (field body_two_lines "email") /\
  mail_to (reply_mail_two_lines all_up) = field body_two_lines "email" /\
  mail_subject (reply_mail_two_lines all_up) = "Thank you for your message!" /\
  exists m1 m2, dispatches (calls all_up body_two_lines empty_world) = [m1; m2].
Proof.
  assert (dispatches (calls all_up body_two_lines empty_world) !! 0
            = Some (operator_mail_two_lines all_up)) as Hfirst
    by (vm_compute; reflexivity).
  assert (dispatches (calls all_up body_two_lines empty_world) !! 1
            = Some (reply_mail_two_lines all_up)) as Hsecond
    by (vm_compute; reflexivity).
  assert (response all_up body_two_lines empty_world = Ok sent_successfully)
    as Haccepted by (vm_compute; reflexivity).
  destruct (mail_options_shape all_up body_two_lines empty_world)
    as (Hoperator & Hreply & Hboth).
  destruct (Hreply _ Hsecond) as [Hto Hsubject].
  split_and!; try assumption.
  - exact (proj1 (Hoperator _ Hfirst)).
  - exact (Hboth Haccepted).
Defined.

Lemma mails_built_from_body_witness :
  Saved (contact_two_lines all_up) ∈ calls all_up body_two_lines empty_world /\
  dispatches (calls all_up body_two_lines empty_world) !! 1
    = Some (reply_mail_two_lines all_up) /\
  field body_two_lines "email" = JsString "Ada@X.com" /\
  Js.has_char Js.is_upper "Ada@X.com" = true /\
  mail_to (reply_mail_two_lines all_up)
    <> JsString (email (contact_two_lines all_up)).
Proof.
  assert (Saved (contact_two_lines all_up)
            ∈ calls all_up body_two_lines empty_world) as Hsaved.
  { vm_compute. apply list_elem_of_here. }
  assert (dispatches (calls all_up body_two_lines empty_world) !! 1
            = Some (reply_mail_two_lines all_up)) as Hsecond
    by (vm_compute; reflexivity).
  assert (field body_two_lines "email" = JsString "Ada@X.com") as Hemail
    by (vm_compute; reflexivity).
  assert (Js.has_char Js.is_upper "Ada@X.com" = true) as Hupper
    by (vm_compute; reflexivity).
  split_and!; try assumption.
  destruct (mails_built_from_body all_up body_two_lines empty_world _ Hsaved)
    as (Hreply & _).
  destruct (Hreply _ Hsecond) as (_ & Hraw).
  exact (proj2 (Hraw _ Hemail) Hupper).
Defined.

Lemma failures_answer_alike_witness :
  rejected body_ada = false /\
  SaveFailed StoreError ∈ calls store_down body_ada empty_world /\
  MailFailed (operator_mail_ada operator_mail_down)
    ∈ calls operator_mail_down body_ada empty_world /\
  response store_down body_ada empty_world = Ok internal_error /\
  response operator_mail_down body_ada empty_world = Ok internal_error.
Proof.
  assert (SaveFailed StoreError ∈ calls store_down body_ada empty_world) as Hsave.
  { vm_compute. apply list_elem_of_here. }
  assert (MailFailed (operator_mail_ada operator_mail_down)
            ∈ calls operator_mail_down body_ada empty_world) as Hmail.
  { vm_compute. apply list_elem_of_further, list_elem_of_here. }
  split_and!; try assumption.
  - apply body_ada_passes.
  - destruct (failures_answer_alike store_down body_ada empty_world)
      as (r & -> & _ & _ & _ & _ & Hfail & _).
    f_equal. exact (Hfail _ Hsave).
  - destruct (failures_answer_alike operator_mail_down body_ada empty_world)
      as (r & -> & _ & _ & _ & _ & _ & Hfail & _).
    f_equal. exact (Hfail _ Hmail).
Defined.

End Concrete.

(** * Further facts *)

(** ** More on trimming and replacing *)

Lemma trimStart_split (s : string) :
  exists pre, s = pre +:+ Js.trimStart s /\ Js.all_chars Js.is_white_space pre = true.
Proof.
  induction s as [|c s (pre & Hs & Hpre)]; [by exists EmptyString|]. simpl.
  destruct (Js.is_white_space c) eqn:Hc.
  - exists (String c pre). rewrite sapp_cons, <- Hs. simpl. by rewrite Hc, Hpre.
  - by exists EmptyString.
Qed.

Lemma trimEnd_split (s : string) :
  exists post, s = Js.trimEnd s +:+ post /\ Js.all_chars Js.is_white_space post = true.
Proof.
  induction s as [|c s (post & Hs & Hpost)]; [by exists EmptyString|]. simpl.
  destruct (Js.trimEnd s) as [|c' t] eqn:Ht.
  - destruct (Js.is_white_space c) eqn:Hc.
    + exists (String c post). rewrite sapp_nil_l in *. subst s. simpl.
      by rewrite Hc, Hpost.
    + exists post. rewrite sapp_cons, sapp_nil_l in *. by subst s.
  - exists post. rewrite sapp_cons. by rewrite <- Hs.
Qed.

(** Trimming takes white space off the two ends and nothing else. *)
Lemma trim_split (s : string) :
  exists pre post, s = pre +:+ Js.trim s +:+ post /\
    Js.all_chars Js.is_white_space pre = true /\
    Js.all_chars Js.is_white_space post = true.
Proof.
  destruct (trimStart_split s) as (pre & Hs & Hpre).
  destruct (trimEnd_split (Js.trimStart s)) as (post & Ht & Hpost).
  exists pre, post. unfold Js.trim. by rewrite <- Ht, <- Hs.
Qed.

Lemma trimStart_starts_clean (s : string) : starts_clean (Js.trimStart s) = true.
Proof.
  induction s as [|c s IH]; [done|]. simpl.
  destruct (Js.is_white_space c) eqn:Hc; [done|]. simpl. by rewrite Hc.
Qed.

Lemma trimEnd_starts_clean (s : string) :
  starts_clean s = true -> starts_clean (Js.trimEnd s) = true.
Proof.
  destruct s as [|c s]; [done|]. simpl. intros Hc.
  destruct (Js.trimEnd s); simpl; [|done].
  apply negb_true_iff in Hc. rewrite Hc. simpl. by rewrite Hc.
Qed.

Lemma starts_clean_trimStart (s : string) :
  starts_clean s = true -> Js.trimStart s = s.
Proof. destruct s as [|c s]; [done|]. simpl. by intros ->%negb_true_iff. Qed.

Lemma trimEnd_idemp (s : string) : Js.trimEnd (Js.trimEnd s) = Js.trimEnd s.
Proof.
  induction s as [|c s IH]; [done|]. simpl.
  destruct (Js.trimEnd s) as [|c' t] eqn:Ht.
  - destruct (Js.is_white_space c) eqn:Hc; [done|]. simpl. by rewrite Hc.
  - change (Js.trimEnd (String c (String c' t)) = String c (String c' t)).
    simpl in *. by rewrite IH.
Qed.

(** What was trimmed has nothing left to trim. *)
Lemma trim_idemp (s : string) : Js.trim (Js.trim s) = Js.trim s.
Proof.
  unfold Js.trim.
  rewrite (starts_clean_trimStart (Js.trimEnd (Js.trimStart s))).
  - apply trimEnd_idemp.
  - apply trimEnd_starts_clean, trimStart_starts_clean.
Qed.

Lemma toLowerCase_white_space (s : string) :
  Js.all_chars Js.is_white_space (Js.toLowerCase s)
  = Js.all_chars Js.is_white_space s.
Proof.
  induction s as [|c s IH]; [done|]. simpl.
  by rewrite lower_char_white_space, IH.
Qed.

Lemma toLowerCase_length (s : string) :
  String.length (Js.toLowerCase s) = String.length s.
Proof. induction s as [|c s IH]; [done|]. simpl. by rewrite IH. Qed.

Lemma sapp_length (s t : string) :
  String.length (s +:+ t) = String.length s + String.length t.
Proof. induction s as [|c s IH]; [done|]. rewrite sapp_cons. simpl. by rewrite IH. Qed.

Lemma count_chars_none p (s : string) :
  Js.has_char p s = false -> count_chars p s = 0.
Proof.
  induction s as [|c s IH]; [done|]. simpl.
  intros [-> Hs]%orb_false_iff. by rewrite IH.
Qed.

(** ** More on the schema *)

Section SchemaFacts.
Context `{JsHost}.

Lemma apply_setters_normal (o : PathOptions) (t : string) :
  opt_trim o = true ->
  Js.trim (apply_setters o t) = apply_setters o t /\
  (opt_lowercase o = true ->
     Js.toLowerCase (apply_setters o t) = apply_setters o t).
Proof.
  unfold apply_setters. intros ->. split; [apply trim_idemp|].
  intros ->. by rewrite toLowerCase_trim, toLowerCase_idemp.
Qed.

(** A set path holds a string only as its setters leave it. *)
Lemma set_path_text (o : PathOptions) (v : JsValue) (s : string) :
  set_path o v = Held (Some s) ->
  exists t, cast_string v = Held (Some t) /\ s = apply_setters o t.
Proof.
  unfold set_path. destruct (cast_string v) as [[t|]|]; try done.
  intros [= <-]. by exists t.
Qed.

Lemma invalid_paths_known (d : Document) :
  invalid_paths d ⊆ ["name"; "email"; "subject"; "message"].
Proof.
  unfold invalid_paths.
  destruct (path_valid _ (doc_name d)), (path_valid _ (doc_email d)),
    (path_valid _ (doc_subject d)), (path_valid _ (doc_message d));
    simpl; intros x Hx; set_unfold; tauto.
Qed.

(** [validate] never fails without naming a path. *)
Lemma validate_names_a_path (d : Document) (paths : list string) :
  validate d = Throw (ValidationError paths) ->
  paths = invalid_paths d /\ paths <> [].
Proof.
  destruct d as [dn de ds dm dt].
  unfold validate, invalid_paths, to_contact, path_valid. simpl.
  destruct dn as [[[|? ?]|]|], de as [[[|? ?]|]|], ds as [[?|]|],
    dm as [[[|? ?]|]|]; simpl; try done; by intros [= <-].
Qed.

Lemma validate_throws (d : Document) (e : Error) :
  validate d = Throw e -> exists paths, e = ValidationError paths.
Proof.
  unfold validate. destruct (invalid_paths d), (to_contact d);
    try done; intros [= <-]; by eexists.
Qed.

Lemma save_outcome_ok (env : Env) (d : Document) (c : Contact) :
  save_outcome env d = Ok c <-> validate d = Ok c /\ store_accepts env c = true.
Proof.
  unfold save_outcome, mbind, Result_bind.
  destruct (validate d) as [c'|e]; [|by split; [|intros [? _]]].
  destruct (store_accepts env c') eqn:Hacc; split.
  - by intros [= <-].
  - by intros [[= <-] _].
  - done.
  - intros [[= <-] Hc]. congruence.
Qed.

Lemma save_outcome_throw (env : Env) (d : Document) (e : Error) :
  save_outcome env d = Throw e ->
  validate d = Throw e \/
  exists c, validate d = Ok c /\ store_accepts env c = false /\ e = StoreError.
Proof.
  unfold save_outcome, mbind, Result_bind.
  destruct (validate d) as [c|e']; [|by left].
  destruct (store_accepts env c) eqn:Hacc; [done|].
  intros [= <-]. right. by exists c.
Qed.

(** Whatever [validate] lets through is normalized. *)
Lemma submitted_normalized (env : Env) (body : gmap string JsValue) (c : Contact) :
  validate (submitted env body) = Ok c -> normalized c.
Proof.
  intros (Hn & Hn' & He & He' & Hs & Hm & Hm' & _)%validate_ok.
  unfold submitted, new_Contact in *. simpl in *.
  apply set_path_text in Hn as (tn & _ & Hn).
  apply set_path_text in He as (te & _ & He).
  apply set_path_text in Hm as (tm & _ & Hm).
  destruct (apply_setters_normal contactSchema_name tn eq_refl) as [Hn1 _].
  destruct (apply_setters_normal contactSchema_email te eq_refl) as [He1 He2].
  destruct (apply_setters_normal contactSchema_message tm eq_refl) as [Hm1 _].
  rewrite <- Hn in Hn1. rewrite <- He in He1, He2. rewrite <- Hm in Hm1.
  specialize (He2 eq_refl).
  split_and!; try done.
  destruct (subject c) as [s|] eqn:Hsub.
  - apply set_path_text in Hs as (ts & _ & ->).
    eexists. split; [done|].
    apply (apply_setters_normal contactSchema_subject ts eq_refl).
  - assert (truthy (js_or (field body "subject") No_Subject) = true) as Ht.
    { unfold js_or. by destruct (truthy (field body "subject")) eqn:Hv. }
    apply cast_string_truthy in Ht. unfold set_path in Hs.
    by destruct (cast_string (js_or (field body "subject") No_Subject)) as [[?|]|].
Qed.

End SchemaFacts.

(** ** More on one run *)

Section MoreRunFacts.
Context `{JsHost}.

Lemma rejected_falsy (body : gmap string JsValue) :
  rejected body = true <->
  truthy (field body "name") = false \/ truthy (field body "email") = false \/
  truthy (field body "message") = false.
Proof.
  unfold rejected, missing_required.
  destruct (truthy (field body "name")), (truthy (field body "email")),
    (truthy (field body "message")); simpl; intuition congruence.
Qed.

(** The world after a run: the database it stored and the log it extended. *)
Lemma world_after (env : Env) (body : gmap string JsValue) (w : World) :
  (post_api_contact env body w).2
  = {| db := stored env body w; log := log w ++ calls env body w |}.
Proof.
  destruct (post_api_contact_cases env body w) as (r & ins & evs & Hrun & _).
  destruct (observe _ _ _ _ _ _ Hrun) as (_ & -> & ->). by rewrite Hrun.
Qed.

Lemma calls_length_bound (env : Env) (body : gmap string JsValue) (w : World) :
  length (dispatches (calls env body w)) <= 2.
Proof. run_cases env body w; simpl; lia. Qed.

(** What one run adds to the database. *)
Lemma stored_step (env : Env) (body : gmap string JsValue) (w : World) :
  exists ins, stored env body w = db w ++ ins /\ length ins <= 1 /\
    Forall normalized ins.
Proof.
  run_cases env body w; eexists; (split; [done|]); simpl; (split; [lia|]);
    try done;
    apply save_outcome_ok in Hsave as [Hv%submitted_normalized _];
    by apply Forall_singleton.
Qed.

Lemma contact_body_fields (c : Contact) :
  field (contact_body c) "name" = JsString (name c) /\
  field (contact_body c) "email" = JsString (email c) /\
  field (contact_body c) "subject" = default JsNull (JsString <$> subject c) /\
  field (contact_body c) "message" = JsString (message c).
Proof. unfold field, contact_body. split_and!; by simplify_map_eq. Qed.

Lemma validate_throw_paths (d : Document) :
  invalid_paths d <> [] -> validate d = Throw (ValidationError (invalid_paths d)).
Proof. unfold validate. by destruct (invalid_paths d). Qed.

(** The documents of one body under two clocks differ in [createdAt] only. *)
Lemma validate_other_clock (env env' : Env) (body : gmap string JsValue) (c : Contact) :
  validate (submitted env body) = Ok c ->
  validate (submitted env' body)
  = Ok {| name := name c; email := email c; subject := subject c;
          message := message c; createdAt := Date_now env' |}.
Proof.
  intros (Hn & Hn' & He & He' & Hs & Hm & Hm' & _)%validate_ok.
  apply validate_ok. by split_and!.
Qed.

(** A white-space string in a required path makes the document invalid. *)
Lemma blank_path_invalid (o : PathOptions) (s : string) :
  required o = true -> opt_trim o = true ->
  Js.all_chars Js.is_white_space s = true ->
  path_valid o (set_path o (JsString s)) = false.
Proof.
  intros Hreq Htrim Hs. unfold set_path, path_valid. simpl.
  rewrite Hreq. simpl. apply negb_false_iff.
  unfold apply_setters. rewrite Htrim.
  destruct (opt_lowercase o); by rewrite trim_empty, ?toLowerCase_white_space.
Qed.

End MoreRunFacts.

(** * Further properties of the handler *)

Section Extras.
Context `{JsHost}.

(** X1.  The 400 answer is given exactly when [name], [email] or [message]
    is falsy: no other path through the handler answers 400, and a falsy
    required field never gets any other answer. *)
Theorem bad_request_exactly_on_falsy
    (env : Env) (body : gmap string JsValue) (w : World) :
  response env body w = Ok bad_request <->
  truthy (field body "name") = false \/ truthy (field body "email") = false \/
  truthy (field body "message") = false.
Proof. by rewrite bad_request_iff, rejected_falsy. Qed.

(** X2.  The subject has no part in the guard: setting it to any value, or
    removing it, never turns an answer into the 400 one or away from it. *)
Theorem subject_never_rejects
    (env : Env) (body : gmap string JsValue) (w : World) (v : JsValue) :
  (response env (<["subject" := v]> body) w = Ok bad_request <->
   response env body w = Ok bad_request) /\
  (response env (delete "subject" body) w = Ok bad_request <->
   response env body w = Ok bad_request).
Proof.
  rewrite !bad_request_iff. unfold rejected, field.
  by rewrite !lookup_insert_ne, !lookup_delete_ne.
Qed.

(** X3.  The handler reads the four keys [name], [email], [subject] and
    [message] and nothing else: two bodies that agree on them get the same
    answer and leave the same world, whatever other keys they carry. *)
Theorem only_four_fields_read
    (env : Env) (body body' : gmap string JsValue) (w : World) :
  (forall k, k ∈ ["name"; "email"; "subject"; "message"] ->
     body !! k = body' !! k) ->
  post_api_contact env body w = post_api_contact env body' w.
Proof.
  intros Hsame.
  assert (forall k, k ∈ ["name"; "email"; "subject"; "message"] ->
            field body k = field body' k) as Hfield.
  { intros k Hk. unfold field. by rewrite (Hsame k Hk). }
  unfold post_api_contact.
  rewrite (Hfield "name"), (Hfield "email"), (Hfield "subject"),
    (Hfield "message"); [done|set_unfold; tauto..].
Qed.

(** X4.  The calls of one request come in a fixed order and stop at the
    first failure: at most two messages are handed to the transport, none
    before a successful save, a failed save is the only call of its request,
    and a failed dispatch is the last. *)
Theorem calls_in_order (env : Env) (body : gmap string JsValue) (w : World) :
  length (dispatches (calls env body w)) <= 2 /\
  (dispatches (calls env body w) <> [] ->
     exists c rest, calls env body w = Saved c :: rest) /\
  (forall e, SaveFailed e ∈ calls env body w ->
     calls env body w = [SaveFailed e]) /\
  (forall m, MailFailed m ∈ calls env body w ->
     last (calls env body w) = Some (MailFailed m)).
Proof.
  run_cases env body w; simpl; (split_and!; [lia | | |]);
    try done; try (by eexists _, _);
    intros ? Hin; set_unfold in Hin; destruct_or?; by simplify_eq.
Qed.

(** X5.  The database after a request is the database before it followed by
    the records whose save succeeded, of which there is at most one; an
    accepted request adds exactly one. *)
Theorem stored_is_db_plus_saved
    (env : Env) (body : gmap string JsValue) (w : World) :
  stored env body w = db w ++ omap saved_of (calls env body w) /\
  length (omap saved_of (calls env body w)) <= 1 /\
  (response env body w = Ok sent_successfully ->
     length (stored env body w) = S (length (db w))).
Proof.
  destruct responses_differ as (Hd1 & Hd2 & Hd3).
  run_cases env body w; simpl; (split_and!; [done | lia |]);
    intros Hr%Ok_inj;
    try (by destruct (Hd1 Hr)); try (by destruct (Hd3 (eq_sym Hr))).
  rewrite length_app. simpl. lia.
Qed.

(** X6.  The 200 answer is given exactly when the guard lets the body
    through, the save succeeds, both messages can be built, and the transport
    takes both. *)
Theorem sent_successfully_exactly
    (env : Env) (body : gmap string JsValue) (w : World) :
  response env body w = Ok sent_successfully <->
  rejected body = false /\
  exists c m1 m2,
    save_outcome env (submitted env body) = Ok c /\
    operator_mail env body = Ok m1 /\ transport_accepts env m1 = true /\
    reply_mail env body = Ok m2 /\ transport_accepts env m2 = true.
Proof.
  destruct responses_differ as (Hd1 & Hd2 & Hd3).
  run_cases env body w; split.
  all: try (intros Hr%Ok_inj;
            first [by destruct (Hd1 Hr) | by destruct (Hd3 (eq_sym Hr))]).
  all: try (intros (Hpass & c & m1 & m2 & Hc & Hm1 & Ha1 & Hm2 & Ha2);
            congruence).
  intros _. split; [done|]. by exists c', m1', m2'.
Qed.

(** X7.  A required field that is a string of white space only passes the
    guard but not the schema: the save is called and fails with a validation
    error that names the field, nothing is stored, nothing is sent, and the
    answer is the 500 one. *)
Theorem blank_required_field_fails_save
    (env : Env) (body : gmap string JsValue) (w : World) (k s : string) :
  k ∈ ["name"; "email"; "message"] ->
  body !! k = Some (JsString s) ->
  Js.all_chars Js.is_white_space s = true ->
  rejected body = false ->
  exists paths,
    calls env body w = [SaveFailed (ValidationError paths)] /\
    k ∈ paths /\
    response env body w = Ok internal_error /\
    stored env body w = db w.
Proof.
  intros Hk Hlookup Hblank Hpass.
  assert (field body k = JsString s) as Hfield.
  { unfold field. by rewrite Hlookup. }
  assert (k ∈ invalid_paths (submitted env body)) as Hin.
  { unfold invalid_paths, submitted, new_Contact. simpl.
    set_unfold in Hk. destruct_or?; subst k; try done; rewrite Hfield;
      first [rewrite (blank_path_invalid contactSchema_name s eq_refl eq_refl Hblank)
            |rewrite (blank_path_invalid contactSchema_email s eq_refl eq_refl Hblank)
            |rewrite (blank_path_invalid contactSchema_message s eq_refl eq_refl Hblank)];
      set_unfold; tauto. }
  assert (save_outcome env (submitted env body)
          = Throw (ValidationError (invalid_paths (submitted env body)))) as Hfail.
  { unfold save_outcome. rewrite validate_throw_paths; [done|].
    intros Hnil. rewrite Hnil in Hin. by set_unfold in Hin. }
  exists (invalid_paths (submitted env body)).
  run_cases env body w; try congruence; rewrite Hfail in Hsave; simplify_eq.
  by rewrite app_nil_r.
Qed.

(** X8.  A save fails in one of two ways only.  Either the document is
    valid and normalized and the database refused it, or the schema rejected
    it with a validation error that names at least one of the four paths. *)
Theorem save_fails_two_ways
    (env : Env) (body : gmap string JsValue) (w : World) (e : Error) :
  SaveFailed e ∈ calls env body w ->
  (e = StoreError /\
   exists c, validate (submitted env body) = Ok c /\ normalized c /\
     store_accepts env c = false) \/
  (exists paths, e = ValidationError paths /\ paths <> [] /\
     paths ⊆ ["name"; "email"; "subject"; "message"]).
Proof.
  run_cases env body w; intros Hin; set_unfold in Hin; destruct_or?;
    simplify_eq.
  apply save_outcome_throw in Hsave as [Hv | (c & Hv & Hacc & ->)].
  - right. destruct (validate_throws _ _ Hv) as [paths ->].
    destruct (validate_names_a_path _ _ Hv) as [-> Hne].
    exists (invalid_paths (submitted env body)).
    split_and!; [done | done | apply invalid_paths_known].
  - left. split; [done|]. exists c. split_and!; try done.
    by apply (submitted_normalized env body).
Qed.

(** X9.  A message that is truthy but not a string passes the guard and can
    be saved, yet no mail is ever built from it: nothing is handed to the
    transport and the answer is the 500 one, while the record, if the save
    succeeded, stays in the database. *)
Theorem non_text_message_sends_nothing
    (env : Env) (body : gmap string JsValue) (w : World) :
  rejected body = false ->
  (forall s, field body "message" <> JsString s) ->
  dispatches (calls env body w) = [] /\
  response env body w = Ok internal_error /\
  (forall c, save_outcome env (submitted env body) = Ok c ->
     stored env body w = db w ++ [c]).
Proof.
  intros Hpass Hmessage.
  assert (forall m, operator_mail env body <> Ok m) as Hnone.
  { intros m (n & e & s & msg & _ & _ & _ & Hmsg & _)%operator_mail_ok.
    by destruct (Hmessage msg). }
  run_cases env body w; try congruence; try (by destruct (Hnone m1')).
  - split_and!; try done. intros c Hc. congruence.
  - split_and!; try done. intros c Hc. congruence.
Qed.

(** X10.  No body changes where the operator message goes or who the
    acknowledgment is from: the first message is addressed to the fixed
    operator address and shows the text of [name] as the sender's name, the
    second has no [replyTo] and the fixed sender's name; both carry
    [EMAIL_USER] as the address, or the text "undefined" when it is not
    set. *)
Theorem mail_headers (env : Env) (body : gmap string JsValue) (w : World) :
  (forall m1, dispatches (calls env body w) !! 0 = Some m1 ->
     mail_to m1 = JsString "kinshuksaxena3@gmail.com" /\
     exists n, toString (field body "name") = Ok n /\
       mail_from m1
       = Js.dq +:+ n +:+ Js.dq +:+ " <" +:+ env_text (EMAIL_USER env) +:+ ">") /\
  (forall m2, dispatches (calls env body w) !! 1 = Some m2 ->
     mail_replyTo m2 = None /\
     mail_from m2
     = Js.dq +:+ "Kinshuk Saxena" +:+ Js.dq +:+ " <" +:+ env_text (EMAIL_USER env) +:+ ">") /\
  (EMAIL_USER env = None ->
     forall m, m ∈ dispatches (calls env body w) ->
       exists pre, mail_from m = pre +:+ " <undefined>").
Proof.
  split_and!.
  - intros m1 (n & e & s & msg & Hn & _ & _ & _ & ->)%dispatches_first%operator_mail_ok.
    simpl. split; [done|]. by exists n.
  - by intros m2 (n & _ & ->)%dispatches_second%reply_mail_ok.
  - intros Hunset m [i Hi]%list_elem_of_lookup.
    pose proof (calls_length_bound env body w) as Hlen.
    apply lookup_lt_Some in Hi as Hlt.
    destruct i as [|[|i]]; [| |lia].
    + apply dispatches_first, operator_mail_ok in Hi
        as (n & e & s & msg & _ & _ & _ & _ & ->).
      simpl. rewrite Hunset. simpl.
      exists (Js.dq +:+ n +:+ Js.dq). by rewrite !sapp_assoc.
    + apply dispatches_second, reply_mail_ok in Hi as (n & _ & ->).
      simpl. rewrite Hunset. simpl.
      exists (Js.dq +:+ "Kinshuk Saxena" +:+ Js.dq). by rewrite !sapp_assoc.
Qed.

(** X11.  Every stored record is normalized: its name, email and message
    are not empty and have no white space at either end, its email has no
    capital letter, its subject is present and trimmed; and its [createdAt]
    is the clock of the request, not anything the client sent. *)
Theorem stored_record_normalized
    (env : Env) (body : gmap string JsValue) (w : World) (c : Contact) :
  Saved c ∈ calls env body w ->
  normalized c /\ createdAt c = Date_now env.
Proof.
  intros (_ & Hvalid & _)%saved_is_submitted. split.
  - by apply (submitted_normalized env body).
  - by apply validate_ok in Hvalid as (_ & _ & _ & _ & _ & _ & _ & <-).
Qed.

(** X12.  Normalizing removes white space from the two ends and nothing
    else: a stored name or message is the text that was sent with white
    space taken off in front and behind, and a stored email is the
    lower-cased text that was sent, likewise cut, so no character inside a
    field is dropped or changed but for the case of the email. *)
Theorem stored_text_inside_input
    (env : Env) (body : gmap string JsValue) (w : World) (c : Contact) :
  Saved c ∈ calls env body w ->
  (forall n, field body "name" = JsString n ->
     exists pre post, n = pre +:+ name c +:+ post /\
       Js.all_chars Js.is_white_space pre = true /\
       Js.all_chars Js.is_white_space post = true) /\
  (forall m, field body "message" = JsString m ->
     exists pre post, m = pre +:+ message c +:+ post /\
       Js.all_chars Js.is_white_space pre = true /\
       Js.all_chars Js.is_white_space post = true) /\
  (forall e, field body "email" = JsString e ->
     exists pre post, Js.toLowerCase e = pre +:+ email c +:+ post /\
       Js.all_chars Js.is_white_space pre = true /\
       Js.all_chars Js.is_white_space post = true /\
       String.length pre + String.length (email c) + String.length post
       = String.length e).
Proof.
  intros (_ & Hvalid & _)%saved_is_submitted.
  apply validate_ok in Hvalid as (Hn & _ & He & _ & _ & Hm & _).
  unfold submitted, new_Contact in Hn, He, Hm. simpl in Hn, He, Hm.
  split_and!.
  - intros n Hfield. rewrite Hfield in Hn. injection Hn as <-. apply trim_split.
  - intros m Hfield. rewrite Hfield in Hm. injection Hm as <-. apply trim_split.
  - intros e Hfield. rewrite Hfield in He. injection He as <-.
    destruct (trim_split (Js.toLowerCase e)) as (pre & post & Hsplit & Hpre & Hpost).
    exists pre, post. split_and!; try done.
    pose proof (f_equal String.length Hsplit) as Hlen.
    rewrite !sapp_length, toLowerCase_length in Hlen.
    unfold apply_setters. simpl. lia.
Qed.

(** X13.  Normalizing is idempotent: sending the fields of a stored record
    back gives a document that validates to the same name, email and
    message.  The subject comes back as it is too, unless it is the empty
    string, which the handler then replaces by "No Subject". *)
Theorem stored_record_resubmitted
    (env env' : Env) (body : gmap string JsValue) (w : World)
    (c : Contact) (s : string) :
  Saved c ∈ calls env body w ->
  subject c = Some s ->
  validate (submitted env' (contact_body c))
  = Ok {| name := name c; email := email c;
          subject := Some (if Js.is_empty s then "No Subject" else s);
          message := message c; createdAt := Date_now env' |}.
Proof.
  intros (_ & Hvalid & _)%saved_is_submitted Hsubject.
  apply submitted_normalized in Hvalid
    as (Hn & Hn' & He & He' & He'' & Hm & Hm' & s' & Hs & Hs').
  rewrite Hsubject in Hs. injection Hs as <-.
  destruct (contact_body_fields c) as (Fn & Fe & Fs & Fm).
  apply validate_ok. unfold submitted, new_Contact. simpl.
  rewrite Fn, Fe, Fs, Fm, Hsubject. unfold set_path, apply_setters. simpl.
  rewrite Hn', He'', He', Hm'.
  split_and!; try done.
  destruct s as [|a s]; [done|].
  simpl. change (js_or (JsString (String a s)) No_Subject) with (JsString (String a s)).
  simpl. by rewrite Hs'.
Qed.

(** X14.  The normal form is an invariant of the database: if every record
    is normalized before a sequence of requests, every record is normalized
    after it, whatever the requests and whatever database and transport do. *)
Theorem serve_keeps_normalized
    (reqs : list (Env * gmap string JsValue)) (w : World) :
  Forall normalized (db w) -> Forall normalized (db (serve reqs w)).
Proof.
  revert w. induction reqs as [|[env body] reqs IH]; intros w Hw; [done|].
  simpl. apply IH. rewrite world_after. simpl.
  destruct (stored_step env body w) as (ins & -> & _ & Hins).
  by apply Forall_app.
Qed.

(** X15.  Requests only append: after any sequence of requests the database
    and the log begin with what they held before, so no stored record is
    changed or removed, and the database has grown by at most one record
    per request. *)
Theorem serve_only_appends
    (reqs : list (Env * gmap string JsValue)) (w : World) :
  db w `prefix_of` db (serve reqs w) /\
  log w `prefix_of` log (serve reqs w) /\
  length (db (serve reqs w)) <= length (db w) + length reqs.
Proof.
  revert w. induction reqs as [|[env body] reqs IH]; intros w.
  { simpl. split_and!; [done | done | lia]. }
  simpl. destruct (IH (post_api_contact env body w).2) as (Hdb & Hlog & Hlen).
  destruct (stored_step env body w) as (ins & Hins & Hone & _).
  assert (db (post_api_contact env body w).2 = db w ++ ins) as Hdb1.
  { by rewrite world_after. }
  assert (log (post_api_contact env body w).2 = log w ++ calls env body w)
    as Hlog1.
  { by rewrite world_after. }
  rewrite Hdb1 in Hdb, Hlen. rewrite Hlog1 in Hlog. rewrite length_app in Hlen.
  split_and!.
  - etrans; [|exact Hdb]. by apply prefix_app_r.
  - etrans; [|exact Hlog]. by apply prefix_app_r.
  - lia.
Qed.

(** X16.  Nothing makes a request idempotent: the same body sent twice, the
    save succeeding both times, leaves two records in the database, alike in
    every field but the [createdAt] each took from its own clock. *)
Theorem same_request_twice
    (env env' : Env) (body : gmap string JsValue) (w : World) (c : Contact) :
  Saved c ∈ calls env body w ->
  store_accepts env' {| name := name c; email := email c; subject := subject c;
                        message := message c; createdAt := Date_now env' |} = true ->
  db (serve [(env, body); (env', body)] w)
  = db w ++ [c; {| name := name c; email := email c; subject := subject c;
                   message := message c; createdAt := Date_now env' |}].
Proof.
  intros (Hpass & Hvalid & _ & Hfirst)%saved_is_submitted Haccept.
  simpl. rewrite (world_after env' body). simpl.
  assert (save_outcome env' (submitted env' body)
          = Ok {| name := name c; email := email c; subject := subject c;
                  message := message c; createdAt := Date_now env' |}) as Hsecond.
  { apply save_outcome_ok. split; [|done]. by apply (validate_other_clock env). }
  set (w1 := (post_api_contact env body w).2).
  assert (db w1 = db w ++ [c]) as Hw1.
  { unfold w1. by rewrite world_after. }
  clearbody w1.
  run_cases env' body w1; try congruence;
    rewrite Hsecond in Hsave; injection Hsave as <-;
    by rewrite Hw1, <- app_assoc.
Qed.

(** X17.  Replacing the line feeds of a message makes it longer by three
    characters for each line feed and by nothing else, and replacing again
    changes nothing, since no line feed is left. *)
Theorem replace_newlines_length (s : string) :
  String.length (Js.replace_newlines s)
  = String.length s + 3 * count_chars Js.is_line_feed s /\
  Js.replace_newlines (Js.replace_newlines s) = Js.replace_newlines s /\
  count_chars Js.is_line_feed (Js.replace_newlines s) = 0.
Proof.
  split_and!.
  - induction s as [|c s IH]; [done|]. simpl.
    destruct (Js.is_line_feed c); simpl.
    + rewrite sapp_length, IH. simpl. lia.
    + rewrite IH. lia.
  - apply replace_newlines_fixed, replace_newlines_no_newline.
  - apply count_chars_none, replace_newlines_no_newline.
Qed.

(** X18.  Status and [success] flag never disagree: every answer has
    status 200, 400 or 500, and its [success] field is [true] exactly when
    the status is 200. *)
Theorem success_flag_matches_status
    (env : Env) (body : gmap string JsValue) (w : World) :
  exists r, response env body w = Ok r /\
    (status r = 200 \/ status r = 400 \/ status r = 500) /\
    (json r !! "success" = Some (JsBool true) <-> status r = 200).
Proof.
  assert (forall code b t,
            json (respond code b t) !! "success" = Some (JsBool b)) as Hflag.
  { intros code b t. unfold respond. simpl. by simplify_map_eq. }
  run_cases env body w; eexists; (split; [reflexivity|]);
    unfold bad_request, internal_error, sent_successfully;
    rewrite Hflag; simpl; (split; [auto|]); split; try done;
    intros Hs; discriminate Hs.
Qed.

End Extras.

(** * The further properties on concrete requests *)

Section ConcreteExtras.
Local Existing Instance integer_host.

Lemma bad_request_exactly_on_falsy_witness :
  truthy (field body_no_name "name") = false /\
  response all_up body_no_name empty_world = Ok bad_request.
Proof.
  assert (truthy (field body_no_name "name") = false) as Hfalsy
    by (vm_compute; reflexivity).
  split; [exact Hfalsy|].
  apply (proj2 (bad_request_exactly_on_falsy all_up body_no_name empty_world)).
  left. exact Hfalsy.
Defined.

Lemma subject_never_rejects_witness :
  response all_up body_no_name empty_world = Ok bad_request /\
  response all_up (<["subject" := JsString "Hi"]> body_no_name) empty_world
  = Ok bad_request.
Proof.
  assert (response all_up body_no_name empty_world = Ok bad_request) as Hr
    by (vm_compute; reflexivity).
  split; [exact Hr|].
  exact (proj2 (proj1 (subject_never_rejects all_up body_no_name empty_world
                         (JsString "Hi"))) Hr).
Defined.

Lemma only_four_fields_read_witness :
  (forall k, k ∈ ["name"; "email"; "subject"; "message"] ->
     body_ada_extras !! k = body_ada !! k) /\
  body_ada_extras !! "createdAt" = Some (JsString "1999-01-01") /\
  post_api_contact all_up body_ada_extras empty_world
  = post_api_contact all_up body_ada empty_world.
Proof.
  assert (forall k, k ∈ ["name"; "email"; "subject"; "message"] ->
            body_ada_extras !! k = body_ada !! k) as Hsame.
  { intros k Hk. apply list_elem_of_In in Hk. simpl in Hk.
    destruct Hk as [<- | [<- | [<- | [<- | []]]]]; vm_compute; reflexivity. }
  split; [exact Hsame|]. split; [vm_compute; reflexivity|].
  exact (only_four_fields_read all_up body_ada_extras body_ada empty_world Hsame).
Defined.

Lemma calls_in_order_witness :
  dispatches (calls operator_mail_down body_ada empty_world) <> [] /\
  exists c rest, calls operator_mail_down body_ada empty_world = Saved c :: rest.
Proof.
  assert (dispatches (calls operator_mail_down body_ada empty_world) <> [])
    as Hsome by (vm_compute; discriminate).
  split; [exact Hsome|].
  exact (proj1 (proj2 (calls_in_order operator_mail_down body_ada empty_world))
           Hsome).
Defined.

Lemma stored_is_db_plus_saved_witness :
  response all_up body_ada empty_world = Ok sent_successfully /\
  length (stored all_up body_ada empty_world) = 1.
Proof.
  assert (response all_up body_ada empty_world = Ok sent_successfully) as Hr
    by (vm_compute; reflexivity).
  split; [exact Hr|].
  exact (proj2 (proj2 (stored_is_db_plus_saved all_up body_ada empty_world)) Hr).
Defined.

Lemma sent_successfully_exactly_witness :
  response all_up body_ada empty_world = Ok sent_successfully /\
  rejected body_ada = false.
Proof.
  assert (response all_up body_ada empty_world = Ok sent_successfully) as Hr
    by (vm_compute; reflexivity).
  split; [exact Hr|].
  exact (proj1 (proj1 (sent_successfully_exactly all_up body_ada empty_world) Hr)).
Defined.

Lemma blank_required_field_fails_save_witness :
  "email" ∈ ["name"; "email"; "message"] /\
  body_blank_email !! "email" = Some (JsString "  ") /\
  Js.all_chars Js.is_white_space "  " = true /\
  rejected body_blank_email = false /\
  exists paths,
    calls all_up body_blank_email empty_world = [SaveFailed (ValidationError paths)] /\
    "email" ∈ paths /\
    response all_up body_blank_email empty_world = Ok internal_error /\
    stored all_up body_blank_email empty_world = db empty_world.
Proof.
  assert (("email" : string) ∈ ["name"; "email"; "message"]) as Hk
    by apply list_elem_of_further, list_elem_of_here.
  assert (body_blank_email !! "email" = Some (JsString "  ")) as Hlookup
    by (vm_compute; reflexivity).
  assert (Js.all_chars Js.is_white_space "  " = true) as Hblank
    by (vm_compute; reflexivity).
  assert (rejected body_blank_email = false) as Hpass
    by (vm_compute; reflexivity).
  split_and!; try assumption.
  exact (blank_required_field_fails_save all_up body_blank_email empty_world
           "email" "  " Hk Hlookup Hblank Hpass).
Defined.

Lemma save_fails_two_ways_witness :
  SaveFailed StoreError ∈ calls store_down body_ada empty_world /\
  ((StoreError = StoreError /\
    exists c, validate (submitted store_down body_ada) = Ok c /\ normalized c /\
      store_accepts store_down c = false) \/
   (exists paths, StoreError = ValidationError paths /\ paths <> [] /\
      paths ⊆ ["name"; "email"; "subject"; "message"])).
Proof.
  assert (SaveFailed StoreError ∈ calls store_down body_ada empty_world) as Hfailed.
  { vm_compute. apply list_elem_of_here. }
  split; [exact Hfailed|].
  exact (save_fails_two_ways store_down body_ada empty_world StoreError Hfailed).
Defined.

Lemma non_text_message_sends_nothing_witness :
  rejected body_true_message = false /\
  (forall s, field body_true_message "message" <> JsString s) /\
  dispatches (calls all_up body_true_message empty_world) = [] /\
  response all_up body_true_message empty_world = Ok internal_error /\
  message <$> stored all_up body_true_message empty_world = ["true"].
Proof.
  assert (rejected body_true_message = false) as Hpass by (vm_compute; reflexivity).
  assert (forall s, field body_true_message "message" <> JsString s) as Hnot.
  { intros s. vm_compute. discriminate. }
  destruct (non_text_message_sends_nothing all_up body_true_message empty_world
              Hpass Hnot) as (Hnone & Hr & Hdb).
  split_and!; try assumption.
  rewrite (Hdb {| name := "Ada"; email := "ada@x.com"; subject := Some "No Subject";
                  message := "true"; createdAt := Date_now all_up |});
    [reflexivity | vm_compute; reflexivity].
Defined.

Lemma mail_headers_witness :
  EMAIL_USER no_email_user = None /\
  operator_mail_ada no_email_user ∈ dispatches (calls no_email_user body_ada empty_world) /\
  exists pre, mail_from (operator_mail_ada no_email_user) = pre +:+ " <undefined>".
Proof.
  assert (operator_mail_ada no_email_user
            ∈ dispatches (calls no_email_user body_ada empty_world)) as Hin.
  { vm_compute. apply list_elem_of_here. }
  split; [reflexivity|]. split; [exact Hin|].
  exact (proj2 (proj2 (mail_headers no_email_user body_ada empty_world))
           eq_refl _ Hin).
Defined.

Lemma stored_record_normalized_witness :
  Saved (contact_two_lines all_up) ∈ calls all_up body_two_lines empty_world /\
  normalized (contact_two_lines all_up) /\
  createdAt (contact_two_lines all_up) = Date_now all_up.
Proof.
  assert (Saved (contact_two_lines all_up)
            ∈ calls all_up body_two_lines empty_world) as Hsaved.
  { vm_compute. apply list_elem_of_here. }
  split; [exact Hsaved|].
  exact (stored_record_normalized all_up body_two_lines empty_world _ Hsaved).
Defined.

Lemma stored_text_inside_input_witness :
  Saved (contact_two_lines all_up) ∈ calls all_up body_two_lines empty_world /\
  field body_two_lines "name" = JsString " Ada " /\
  exists pre post, " Ada " = pre +:+ name (contact_two_lines all_up) +:+ post /\
    Js.all_chars Js.is_white_space pre = true /\
    Js.all_chars Js.is_white_space post = true.
Proof.
  assert (Saved (contact_two_lines all_up)
            ∈ calls all_up body_two_lines empty_world) as Hsaved.
  { vm_compute. apply list_elem_of_here. }
  assert (field body_two_lines "name" = JsString " Ada ") as Hname
    by (vm_compute; reflexivity).
  split; [exact Hsaved|]. split; [exact Hname|].
  exact (proj1 (stored_text_inside_input all_up body_two_lines empty_world _ Hsaved)
           _ Hname).
Defined.

Lemma stored_record_resubmitted_witness :
  Saved (contact_two_lines all_up) ∈ calls all_up body_two_lines empty_world /\
  subject (contact_two_lines all_up) = Some "Hi" /\
  validate (submitted all_up_later (contact_body (contact_two_lines all_up)))
  = Ok (contact_two_lines all_up_later).
Proof.
  assert (Saved (contact_two_lines all_up)
            ∈ calls all_up body_two_lines empty_world) as Hsaved.
  { vm_compute. apply list_elem_of_here. }
  split; [exact Hsaved|]. split; [reflexivity|].
  exact (stored_record_resubmitted all_up all_up_later body_two_lines empty_world
           _ "Hi" Hsaved eq_refl).
Defined.

Lemma serve_keeps_normalized_witness :
  Forall normalized (db empty_world) /\
  Forall normalized
    (db (serve [(all_up, body_two_lines); (store_down, body_ada);
                (all_up_later, body_blank_subject)] empty_world)).
Proof.
  assert (Forall normalized (db empty_world)) as Hempty by apply Forall_nil_2.
  split; [exact Hempty|].
  exact (serve_keeps_normalized _ empty_world Hempty).
Defined.

Lemma same_request_twice_witness :
  Saved (contact_ada all_up) ∈ calls all_up body_ada empty_world /\
  store_accepts all_up_later (contact_ada all_up_later) = true /\
  db (serve [(all_up, body_ada); (all_up_later, body_ada)] empty_world)
  = [contact_ada all_up; contact_ada all_up_later].
Proof.
  assert (Saved (contact_ada all_up) ∈ calls all_up body_ada empty_world) as Hsaved.
  { vm_compute. apply list_elem_of_here. }
  split; [exact Hsaved|]. split; [reflexivity|].
  exact (same_request_twice all_up all_up_later body_ada empty_world _
           Hsaved eq_refl).
Defined.

End ConcreteExtras.
